(** * EstJe backend (backend/server.js): a shallow embedding and its properties

    The server is an Express application over a MySQL pool.  The embedding
    follows the file top-down: the JavaScript primitives the handlers lean on
    ([parseInt], [String.prototype.split], truthiness), the store reached
    through [db.query], the [authenticateToken] middleware, the ten API
    handlers and the route registrations.

    Conventions.
    - A JavaScript string is a Rocq [string]; a character stands for the
      UTF-16 code unit with the same number, so the strings covered are those
      whose code units are below 256.
    - A JavaScript Number is a [number]: [NaN], an infinity, or a finite
      double, which the handlers only ever hold with an integer value and
      which is written as that integer.  Arithmetic rounds to the nearest
      double as IEEE 754 does.
    - Request-body fields are optional strings: [None] is [undefined]. *)

From Stdlib Require Import ZArith List String Ascii Bool Lia DecimalString.
Import ListNotations.

Local Open Scope string_scope.
Local Open Scope Z_scope.

Set Default Proof Using "Type".

(** ** JavaScript primitives *)

(** Code unit of a character. *)
Definition code (c : ascii) : Z := Z.of_N (N_of_ascii c).

(** [StrWhiteSpaceChar] restricted to code units below 256: TAB, LF, VT, FF,
    CR, SP and NBSP. *)
Definition is_white_space (c : ascii) : bool :=
  let n := code c in
  ((9 <=? n) && (n <=? 13)) || (n =? 32) || (n =? 160).

(** Value of a character read as a digit in some radix up to 36. *)
Definition digit_value (c : ascii) : option Z :=
  let n := code c in
  if (48 <=? n) && (n <=? 57) then Some (n - 48)
  else if (97 <=? n) && (n <=? 122) then Some (n - 87)
  else if (65 <=? n) && (n <=? 90) then Some (n - 55)
  else None.

Fixpoint trim_start (s : string) : string :=
  match s with
  | String c r => if is_white_space c then trim_start r else s
  | EmptyString => s
  end.

(** The longest prefix of [s] made of radix-[R] digits, as digit values. *)
Fixpoint digits_prefix (R : Z) (s : string) : list Z :=
  match s with
  | String c r =>
      match digit_value c with
      | Some d => if d <? R then d :: digits_prefix R r else []
      | None => []
      end
  | EmptyString => []
  end.

Definition math_int (R : Z) (ds : list Z) : Z :=
  fold_left (fun acc d => acc * R + d) ds 0.

(** A Number whose finite values are integers.  The two zeros are not told
    apart: nothing here divides. *)
Inductive number :=
| NaN
| Infinity (negative : bool)
| Finite (z : Z).

Definition negate (n : number) : number :=
  match n with
  | NaN => NaN
  | Infinity s => Infinity (negb s)
  | Finite z => Finite (- z)
  end.

(** The double nearest to a natural number [m], ties going to the even
    significand: exact below 2^53; above, [m] is cut to 53 significant bits;
    from 2^1024 on the result is [Infinity]. *)
Definition nearest_double (m : Z) : number :=
  if m <? 2 ^ 53 then Finite m
  else
    let e := Z.log2 m - 52 in
    let q := m / 2 ^ e in
    let r := m mod 2 ^ e in
    let half := 2 ^ (e - 1) in
    let q' :=
      if r <? half then q
      else if half <? r then q + 1
      else if Z.even q then q else q + 1 in
    if 2 ^ 1024 <=? q' * 2 ^ e then Infinity false else Finite (q' * 2 ^ e).

(** The Number value of a mathematical integer. *)
Definition to_number (z : Z) : number :=
  if z <? 0 then negate (nearest_double (- z)) else nearest_double z.

(** [a - b] and [a * b] on Numbers with integer values. *)
Definition number_sub (a b : number) : number :=
  match a, b with
  | NaN, _ | _, NaN => NaN
  | Infinity s, Infinity s' => if Bool.eqb s s' then NaN else Infinity s
  | Infinity s, Finite _ => Infinity s
  | Finite _, Infinity s => Infinity (negb s)
  | Finite x, Finite y => to_number (x - y)
  end.

Definition number_mul (a b : number) : number :=
  match a, b with
  | NaN, _ | _, NaN => NaN
  | Infinity s, Infinity s' => Infinity (xorb s s')
  | Infinity s, Finite y => if y =? 0 then NaN else Infinity (xorb s (y <? 0))
  | Finite x, Infinity s => if x =? 0 then NaN else Infinity (xorb (x <? 0) s)
  | Finite x, Finite y => to_number (x * y)
  end.

(** [parseInt(string)] with the radix left out, step by step as in ECMA-262
    (19.2.5): leading white space is dropped, a sign is noted and removed, a
    [0x]/[0X] prefix is removed and selects radix 16, and the longest run of
    digits is evaluated; no digit gives [NaN].  The result is the Number for
    the integer read, which V8 rounds to the nearest double. *)
Definition parseInt (input : string) : number :=
  let s := trim_start input in
  let sign :=
    match s with
    | String c _ => if (c =? "-")%char then -1 else 1
    | EmptyString => 1
    end in
  let s :=
    match s with
    | String c r => if ((c =? "+") || (c =? "-"))%char then r else s
    | EmptyString => s
    end in
  let strip_prefix :=
    match s with
    | String c (String x _) => ((c =? "0") && ((x =? "x") || (x =? "X")))%char
    | _ => false
    end in
  let R := if strip_prefix then 16 else 10 in
  let s :=
    match s with
    | String _ (String _ r) => if strip_prefix then r else s
    | _ => s
    end in
  match digits_prefix R s with
  | [] => NaN
  | ds => to_number (sign * math_int R ds)
  end.

(** [n || d] for a Number [n]: [NaN] and zero are falsy. *)
Definition or_default (n : number) (d : number) : number :=
  match n with
  | NaN => d
  | Finite z => if z =? 0 then d else n
  | Infinity _ => n
  end.

(** A value of [req.query.<name>] as Express hands it over: missing, a
    string, an array of strings (a repeated parameter) or a nested object. *)
Inductive qvalue :=
| QUndefined
| QString (s : string)
| QArray (l : list string)
| QObject.

(** [ToString], which [parseInt] applies to its argument. *)
Definition to_string (q : qvalue) : string :=
  match q with
  | QUndefined => "undefined"
  | QString s => s
  | QArray l => String.concat "," l
  | QObject => "[object Object]"
  end.

(** [parseInt(req.query.page) || 1] and [parseInt(req.query.limit) || 10]. *)
Definition page_of (q : qvalue) : number :=
  or_default (parseInt (to_string q)) (Finite 1).
Definition limit_of (q : qvalue) : number :=
  or_default (parseInt (to_string q)) (Finite 10).

(** From the spec's words, for comparison with [page_of] and [limit_of]:
    a query value denotes a positive integer when it is a non-empty string of
    decimal digits whose value is positive. *)
Definition is_decimal_digit (c : ascii) : bool :=
  (48 <=? code c) && (code c <=? 57).

Fixpoint decimal_digits (s : string) : option (list Z) :=
  match s with
  | EmptyString => Some []
  | String c r =>
      if is_decimal_digit c
      then option_map (cons (code c - 48)) (decimal_digits r)
      else None
  end.

Definition decimal_value (s : string) : option Z :=
  match s with
  | EmptyString => None
  | _ => option_map (math_int 10) (decimal_digits s)
  end.

Definition denotes_positive_integer (q : qvalue) : bool :=
  match q with
  | QString s =>
      match decimal_value s with
      | Some n => 0 <? n
      | None => false
      end
  | _ => false
  end.

(** From the spec's words, for comparison with what the List handlers
    select: the slice of a table for a page starts at offset
    [(page - 1) * limit] and has at most [limit] rows, in store order. *)
Definition slice_of_page {A} (page limit : Z) (l : list A) : list A :=
  firstn (Z.to_nat limit) (skipn (Z.to_nat ((page - 1) * limit)) l).

(** Whether a string, once leading white space and one sign are set aside,
    begins with a decimal digit. *)
Definition begins_with_digit (s : string) : bool :=
  let t := trim_start s in
  let t :=
    match t with
    | String c r => if ((c =? "+") || (c =? "-"))%char then r else t
    | EmptyString => t
    end in
  match t with
  | String c _ => is_decimal_digit c
  | EmptyString => false
  end.

(** [s.split(sep)] for a one-character separator: the pieces between the
    occurrences of [sep], in order; never an empty array. *)
Fixpoint split (sep : ascii) (s : string) : list string :=
  match s with
  | EmptyString => [""]
  | String c r =>
      if Ascii.eqb c sep then "" :: split sep r
      else match split sep r with
           | piece :: pieces => String c piece :: pieces
           | [] => [String c ""]
           end
  end.

(** ** Data model *)

(** Modelled from the spec: the table declarations are not part of
    server.js; the columns are those of the persisted state layout,
    [users(id, email unique, password, role)]. *)
Record user := {
  user_id : Z;
  user_email : string;
  user_password : string;
  user_role : string
}.

(** Modelled from the spec: [devices(id, name, model, description, image,
    price, status, client_name, client_phone)].  A column holds what the
    handler bound to it; [None] is SQL NULL. *)
Module Device.
Record row := {
  id : Z;
  name : option string;
  model : option string;
  description : option string;
  image : option string;
  price : option string;
  status : option string;
  client_name : option string;
  client_phone : option string
}.
End Device.

(** Modelled from the spec: [services(id, title, description, price, image,
    duration, category, is_available, technician)]. *)
Module Service.
Record row := {
  id : Z;
  title : option string;
  description : option string;
  price : option string;
  image : option string;
  duration : option string;
  category : option string;
  is_available : option string;
  technician : option string
}.
End Service.

(** A table: its rows in store order and the id the next INSERT receives. *)
Record table (A : Type) := {
  rows : list A;
  auto_increment : Z
}.
Arguments rows {A} _.
Arguments auto_increment {A} _.

(** What [db] (the pool) gives access to: the three tables and, for the
    queries to come, whether the connection fails ([true]) on each of them;
    past the end of [faults] every query is answered. *)
Record db := {
  users : table user;
  devices : table Device.row;
  services : table Service.row;
  faults : list bool
}.

Definition with_users (d : db) (t : table user) : db :=
  {| users := t; devices := devices d; services := services d;
     faults := faults d |}.
Definition with_devices (d : db) (t : table Device.row) : db :=
  {| users := users d; devices := t; services := services d;
     faults := faults d |}.
Definition with_services (d : db) (t : table Service.row) : db :=
  {| users := users d; devices := devices d; services := t;
     faults := faults d |}.
Definition with_faults (d : db) (f : list bool) : db :=
  {| users := users d; devices := devices d; services := services d;
     faults := f |}.

(** The tables of [d'] are those of [d]. *)
Definition same_tables (d d' : db) : Prop :=
  users d' = users d /\ devices d' = devices d /\ services d' = services d.

(** The payload [login] signs and the object [jwt.verify] decodes. *)
Record payload := { payload_id : Z; payload_role : string }.
Record claims := {
  claims_id : Z;
  claims_role : string;
  iat : Z;
  exp : Z
}.

(** [req.file] as multer fills it in. *)
Record file := { filename : string }.

(** The [image] part of a multipart body as it reaches multer's storage: the
    file name the client gave, and the reading of [Date.now()]
    (milliseconds) at the moment the storage names the file. *)
Record part := { originalname : string; date_now : Z }.

(** The parts of an Express request the handlers read.  [image_part] is the
    [image] part of a multipart body, if the request has one; [req_file] is
    [req.file], which only [upload.single('image')] sets. *)
Record request := {
  authorization : option string;
  query_page : qvalue;
  query_limit : qvalue;
  params_id : string;
  body : list (string * string);
  image_part : option part;
  req_file : option file;
  req_user : option claims
}.

Definition set_user (req : request) (u : claims) : request :=
  {| authorization := authorization req; query_page := query_page req;
     query_limit := query_limit req; params_id := params_id req;
     body := body req; image_part := image_part req;
     req_file := req_file req; req_user := Some u |}.
Definition set_file (req : request) (f : option file) : request :=
  {| authorization := authorization req; query_page := query_page req;
     query_limit := query_limit req; params_id := params_id req;
     body := body req; image_part := image_part req;
     req_file := f; req_user := req_user req |}.
Definition set_authorization (req : request) (h : option string) : request :=
  {| authorization := h; query_page := query_page req;
     query_limit := query_limit req; params_id := params_id req;
     body := body req; image_part := image_part req;
     req_file := req_file req; req_user := req_user req |}.

(** [req.body.<key>]. *)
Fixpoint field (key : string) (b : list (string * string)) : option string :=
  match b with
  | [] => None
  | (k, v) :: rest => if String.eqb k key then Some v else field key rest
  end.

(** Truthiness of a value that is [undefined] or a string. *)
Definition truthy (v : option string) : bool :=
  match v with
  | Some (String _ _) => true
  | _ => false
  end.

(** JSON bodies the server sends. *)
Inductive json :=
| JError (error : string)
| JMessage (message : string)
| JToken (token : string) (role : string)
| JDevices (devices : list Device.row) (total : Z) (page limit : number)
| JServices (services : list Service.row) (total : Z) (page limit : number).

Record response := { status : Z; json_body : json }.

(** [res.status(code).json(b)] and [res.json(b)]. *)
Definition status_json (code : Z) (b : json) : response :=
  {| status := code; json_body := b |}.
Definition res_json (b : json) : response := status_json 200 b.

(** ** Queries: a state-and-exception monad over the pool *)

Inductive outcome (A : Type) :=
| Ok (a : A)
| Thrown.
Arguments Ok {A} _.
Arguments Thrown {A}.

Definition Db (A : Type) : Type := db -> outcome A * db.

Definition ret {A} (a : A) : Db A := fun d => (Ok a, d).
Definition bind {A B} (m : Db A) (k : A -> Db B) : Db B :=
  fun d => match m d with
           | (Ok a, d') => k a d'
           | (Thrown, d') => (Thrown, d')
           end.

Notation "'let*' x ':=' m 'in' k" := (bind m (fun x => k))
  (at level 10, x name, m at level 100, k at level 200).

(** [try { ... } catch (error) { res.status(500).json(...) }]. *)
Definition try_catch (m : Db response) (on_error : response)
  : db -> response * db :=
  fun d => match m d with
           | (Ok r, d') => (r, d')
           | (Thrown, d') => (on_error, d')
           end.

(** A statement run by the server: its result and the new tables, or
    [None] when the server rejects it. *)
Definition statement (A : Type) : Type := db -> option (A * db).

(** [await db.query(...)]: consumes one entry of [faults]; throws when the
    connection fails or the statement is rejected. *)
Definition query {A} (st : statement A) : Db A :=
  fun d =>
    match faults d with
    | true :: f => (Thrown, with_faults d f)
    | f =>
        let d' := with_faults d (tl f) in
        match st d' with
        | Some (a, d'') => (Ok a, d'')
        | None => (Thrown, d')
        end
    end.

(** The next [n] queries reach the server. *)
Definition answers (n : nat) (d : db) : bool :=
  forallb negb (firstn n (faults d)).

(** ** An unsigned token format

    A small stand-in for jsonwebtoken, used to instantiate the server's
    parameters on concrete requests: a token spells out the id, the issue
    time and the role, and is accepted for an hour. *)
Module Unsigned.

Fixpoint ones (n : nat) : string :=
  match n with
  | O => ""
  | S k => String "1" (ones k)
  end.

Definition write_Z (z : Z) (rest : string) : string :=
  String (if z <? 0 then "-" else "+")
         (ones (Z.abs_nat z) ++ String "." rest).

Fixpoint count_ones (s : string) : nat * string :=
  match s with
  | String c r =>
      if (c =? "1")%char
      then let '(n, t) := count_ones r in (S n, t)
      else (O, s)
  | EmptyString => (O, s)
  end.

Definition read_Z (s : string) : option (Z * string) :=
  match s with
  | String sg r =>
      let '(n, t) := count_ones r in
      match t with
      | String dot rest =>
          if negb (dot =? ".")%char then None
          else if (sg =? "-")%char then Some (- Z.of_nat n, rest)
          else if (sg =? "+")%char then Some (Z.of_nat n, rest)
          else None
      | EmptyString => None
      end
  | EmptyString => None
  end.

Definition sign (p : payload) (secret : option string) (expiresIn : string)
  (now : Z) : option string :=
  Some (write_Z (payload_id p) (write_Z now (payload_role p))).

Definition verify (token : string) (secret : option string) (now : Z)
  : option claims :=
  match read_Z token with
  | Some (id, rest) =>
      match read_Z rest with
      | Some (t, role) =>
          if now <? t + 3600
          then Some {| claims_id := id; claims_role := role;
                       iat := t; exp := t + 3600 |}
          else None
      | None => None
      end
  | None => None
  end.

End Unsigned.

(** ** A sample deployment

    Concrete choices for the server's parameters and a small store, on which
    the properties below are exercised. *)
Module Sample.

(** A binary collation for [email]. *)
Definition email_eq : string -> string -> bool := String.eqb.

(** The [id] parameter read as a number and compared with the column. *)
Definition id_eq (s : string) (z : Z) : bool :=
  match parseInt s with
  | Finite n => n =? z
  | _ => false
  end.

(** A stand-in for [path.extname]: the text from the last dot on. *)
Fixpoint extname (s : string) : string :=
  match s with
  | EmptyString => ""
  | String c r =>
      match extname r with
      | EmptyString => if (c =? ".")%char then s else ""
      | e => e
      end
  end.

Definition secret : option string := Some "s3cret".

Definition alice : user :=
  {| user_id := 1; user_email := "a@x.com"; user_password := "p";
     user_role := "user" |}.

Definition device (n : Z) : Device.row :=
  {| Device.id := n; Device.name := Some "phone"; Device.model := Some "X1";
     Device.description := None;
     Device.image := Some "/uploads/placeholder.jpg";
     Device.price := Some "10"; Device.status := Some "new";
     Device.client_name := None; Device.client_phone := None |}.

Definition service (n : Z) : Service.row :=
  {| Service.id := n; Service.title := Some "screen";
     Service.description := None; Service.price := Some "25";
     Service.image := Some "/uploads/1700000000000.png";
     Service.duration := Some "1h"; Service.category := None;
     Service.is_available := Some "1"; Service.technician := None |}.

Definition store : db :=
  {| users := {| rows := [alice]; auto_increment := 2 |};
     devices := {| rows := map device [1; 2; 3; 4; 5; 6; 7; 8; 9; 10; 11];
                   auto_increment := 12 |};
     services := {| rows := map service [1; 2]; auto_increment := 3 |};
     faults := [false; false; false] |}.

(** A request as it arrives, with the given header, [page] and [limit],
    [:id], body and [image] part. *)
Definition request_of (h : option string) (page limit : qvalue) (id : string)
  (b : list (string * string)) (f : option part) : request :=
  {| authorization := h; query_page := page; query_limit := limit;
     params_id := id; body := b; image_part := f; req_file := None;
     req_user := None |}.

End Sample.

(** What the server relies on from jsonwebtoken: signing a payload with the
    configured secret and [expiresIn: '1h'] succeeds, and verifying the token
    at its issue time gives the payload back with [iat] and [exp = iat + 3600]. *)
Definition jwt_contract
  (jwt_sign : payload -> option string -> string -> Z -> option string)
  (jwt_verify : string -> option string -> Z -> option claims)
  (secret : option string) : Prop :=
  forall p t, exists token,
    jwt_sign p secret "1h" t = Some token /\
    jwt_verify token secret t =
      Some {| claims_id := payload_id p; claims_role := payload_role p;
              iat := t; exp := t + 3600 |}.

(** ** The server *)

Section Server.

(** The store's comparison of a bound parameter with the [email] column
    (its collation) and with the integer [id] column. *)
Variable email_eq : string -> string -> bool.
Variable id_eq : string -> Z -> bool.

(** [process.env.JWT_SECRET], and jsonwebtoken's [sign] and [verify] at a
    given clock reading (in seconds); [sign] gives [None] when it throws,
    [verify] gives [None] when it reports an error. *)
Variable JWT_SECRET : option string.
Variable jwt_sign : payload -> option string -> string -> Z -> option string.
Variable jwt_verify : string -> option string -> Z -> option claims.

(** Node's [path.extname]. *)
Variable path_extname : string -> string.

(** *** SQL statements *)

(** The rows [WHERE email = ?] keeps; an unbound ([undefined]) parameter is
    sent as NULL, which equals nothing. *)
Definition users_with_email (e : option string) (d : db) : list user :=
  match e with
  | Some e => filter (fun u => email_eq e (user_email u)) (rows (users d))
  | None => []
  end.

(** [SELECT * FROM users WHERE email = ?]. *)
Definition select_users_by_email (e : option string) : statement (list user) :=
  fun d => Some (users_with_email e d, d).

(** [INSERT INTO users (email, password, role) VALUES (?, ?, ?)]. *)
Definition insert_user (e p r : string) : statement unit :=
  fun d =>
    let t := users d in
    let u := {| user_id := auto_increment t; user_email := e;
                user_password := p; user_role := r |} in
    Some (tt, with_users d {| rows := rows t ++ [u];
                              auto_increment := auto_increment t + 1 |}).

(** A Number bound to [LIMIT ?] or [OFFSET ?].  [db.query] writes it into
    the statement as JavaScript prints it: the decimal digits of an integer
    below 10^21, an exponent form such as [1e+24] from there on, [NaN],
    [Infinity], a minus sign for a negative.  MySQL takes there only an
    unsigned integer literal, at most 2^64 - 1, and rejects the statement
    otherwise. *)
Definition sql_count (n : number) : option nat :=
  match n with
  | Finite z =>
      if (0 <=? z) && (z <=? 18446744073709551615)
      then Some (Z.to_nat z) else None
  | _ => None
  end.

(** [SELECT * FROM <table> LIMIT ? OFFSET ?]. *)
Definition select_limit_offset {A} (tbl : db -> table A)
  (limit offset : number) : statement (list A) :=
  fun d =>
    match sql_count limit, sql_count offset with
    | Some l, Some o => Some (firstn l (skipn o (rows (tbl d))), d)
    | _, _ => None
    end.

(** [SELECT COUNT( * ) as total FROM <table>], read as [countResult[0].total]. *)
Definition select_count {A} (tbl : db -> table A) : statement Z :=
  fun d => Some (Z.of_nat (List.length (rows (tbl d))), d).

(** [INSERT INTO devices (name, model, description, image, price, status,
    client_name, client_phone) VALUES (...)]. *)
Definition insert_device
  (name model description image price status client_name client_phone
     : option string) : statement unit :=
  fun d =>
    let t := devices d in
    let r := {| Device.id := auto_increment t; Device.name := name;
                Device.model := model; Device.description := description;
                Device.image := image; Device.price := price;
                Device.status := status; Device.client_name := client_name;
                Device.client_phone := client_phone |} in
    Some (tt, with_devices d {| rows := rows t ++ [r];
                                auto_increment := auto_increment t + 1 |}).

(** [UPDATE devices SET name = ?, ..., client_phone = ? WHERE id = ?]. *)
Definition update_device
  (name model description image price status client_name client_phone
     : option string) (id : string) : statement unit :=
  fun d =>
    let t := devices d in
    let set (r : Device.row) :=
      if id_eq id (Device.id r) then
        {| Device.id := Device.id r; Device.name := name;
           Device.model := model; Device.description := description;
           Device.image := image; Device.price := price;
           Device.status := status; Device.client_name := client_name;
           Device.client_phone := client_phone |}
      else r in
    Some (tt, with_devices d {| rows := map set (rows t);
                                auto_increment := auto_increment t |}).

(** [DELETE FROM devices WHERE id = ?]. *)
Definition delete_device (id : string) : statement unit :=
  fun d =>
    let t := devices d in
    Some (tt, with_devices d
                {| rows := filter (fun r => negb (id_eq id (Device.id r)))
                                  (rows t);
                   auto_increment := auto_increment t |}).

(** [INSERT INTO services (title, description, price, image, duration,
    category, is_available, technician) VALUES (...)]. *)
Definition insert_service
  (title description price image duration category is_available technician
     : option string) : statement unit :=
  fun d =>
    let t := services d in
    let r := {| Service.id := auto_increment t; Service.title := title;
                Service.description := description; Service.price := price;
                Service.image := image; Service.duration := duration;
                Service.category := category;
                Service.is_available := is_available;
                Service.technician := technician |} in
    Some (tt, with_services d {| rows := rows t ++ [r];
                                 auto_increment := auto_increment t + 1 |}).

(** [UPDATE services SET title = ?, ..., technician = ? WHERE id = ?]. *)
Definition update_service
  (title description price image duration category is_available technician
     : option string) (id : string) : statement unit :=
  fun d =>
    let t := services d in
    let set (r : Service.row) :=
      if id_eq id (Service.id r) then
        {| Service.id := Service.id r; Service.title := title;
           Service.description := description; Service.price := price;
           Service.image := image; Service.duration := duration;
           Service.category := category;
           Service.is_available := is_available;
           Service.technician := technician |}
      else r in
    Some (tt, with_services d {| rows := map set (rows t);
                                 auto_increment := auto_increment t |}).

(** [DELETE FROM services WHERE id = ?]. *)
Definition delete_service (id : string) : statement unit :=
  fun d =>
    let t := services d in
    Some (tt, with_services d
                {| rows := filter (fun r => negb (id_eq id (Service.id r)))
                                  (rows t);
                   auto_increment := auto_increment t |}).

(** *** Middleware *)

(** A middleware either answers the request or calls [next()] with the
    request it may have modified. *)
Inductive verdict :=
| Respond (res : response)
| Next (req : request).

(** [authHeader && authHeader.split(' ')[1]]: the header itself when it is
    missing or empty, else the second piece of the split, which may be
    missing. *)
Definition bearer_token (authHeader : option string) : option string :=
  match authHeader with
  | Some (String _ _ as h) => nth_error (split " " h) 1
  | falsy => falsy
  end.

(** [authenticateToken] (lines 80-89); [!token] holds for a missing and for
    an empty token. *)
Definition authenticateToken (req : request) (now : Z) : verdict :=
  let authHeader := authorization req in
  let token := bearer_token authHeader in
  match token with
  | Some (String _ _ as token) =>
      match jwt_verify token JWT_SECRET now with
      | None => Respond (status_json 403 (JError "Invalid token"))
      | Some user => Next (set_user req user)
      end
  | _ => Respond (status_json 401 (JError "Token required"))
  end.

(** The disk storage's [filename] callback (lines 38-43):
    [Date.now() + path.extname(file.originalname)], the clock reading
    printed in decimal followed by the extension. *)
Definition storage_filename (p : part) : string :=
  NilZero.string_of_int (Z.to_int (date_now p))
  ++ path_extname (originalname p).

(** The file multer stores for a request, if it has an [image] part. *)
Definition attachment (req : request) : option file :=
  option_map (fun p => {| filename := storage_filename p |}) (image_part req).

(** [upload.single('image')]: the stored file, if the request brought one,
    becomes [req.file].  The clock that names the file is the [date_now] of
    the part, in milliseconds, not the [now] of the handlers, which is
    jsonwebtoken's clock in seconds.  Requests are those multer accepts: a
    body it cannot parse, or a disk it cannot write, makes it pass an error
    to Express instead of calling [next()] and is left out. *)
Definition upload_single_image (req : request) (now : Z) : verdict :=
  Next (set_file req (attachment req)).

(** *** Handlers *)

Definition handler : Type := request -> Z -> db -> response * db.

(** [POST /api/register] (lines 92-109).  [!email || !password] holds unless
    both fields are non-empty strings. *)
Definition register : handler := fun req now =>
  match field "email" (body req), field "password" (body req) with
  | Some (String _ _ as email), Some (String _ _ as password) =>
      try_catch
        (let* existingUsers := query (select_users_by_email (Some email)) in
         if (0 <? Z.of_nat (List.length existingUsers)) then
           ret (status_json 400 (JError "Email already exists"))
         else
           let* _ := query (insert_user email password "user") in
           ret (status_json 201 (JMessage "User registered")))
        (status_json 500 (JError "Registration failed"))
  | _, _ => fun d => (status_json 400 (JError "Invalid input"), d)
  end.

(** [jwt.sign(...)] inside a [try] block. *)
Definition sign (p : payload) (now : Z) : Db string :=
  fun d => match jwt_sign p JWT_SECRET "1h" now with
           | Some token => (Ok token, d)
           | None => (Thrown, d)
           end.

(** [password !== user.password] for a body field and a stored string. *)
Definition strict_neq (supplied : option string) (stored : string) : bool :=
  match supplied with
  | Some s => negb (String.eqb s stored)
  | None => true
  end.

(** [POST /api/login] (lines 112-124). *)
Definition login : handler := fun req now =>
  let email := field "email" (body req) in
  let password := field "password" (body req) in
  try_catch
    (let* users := query (select_users_by_email email) in
     match users with
     | [] => ret (status_json 401 (JError "User not found"))
     | user :: _ =>
         if strict_neq password (user_password user) then
           ret (status_json 401 (JError "Invalid password"))
         else
           let* token := sign {| payload_id := user_id user;
                               payload_role := user_role user |} now in
           ret (res_json (JToken token (user_role user)))
     end)
    (status_json 500 (JError "Login failed")).

(** [req.file ? `/uploads/${req.file.filename}` : otherwise]. *)
Definition image_of (f : option file) (otherwise : option string)
  : option string :=
  match f with
  | Some f => Some ("/uploads/" ++ filename f)
  | None => otherwise
  end.

(** [GET /api/devices] (lines 128-140). *)
Definition get_devices : handler := fun req now =>
  let page := page_of (query_page req) in
  let limit := limit_of (query_limit req) in
  let offset := number_mul (number_sub page (Finite 1)) limit in
  try_catch
    (let* selected := query (select_limit_offset devices limit offset) in
     let* total := query (select_count devices) in
     ret (res_json (JDevices selected total page limit)))
    (status_json 500 (JError "Failed to fetch devices")).

(** [POST /api/devices] (lines 143-155). *)
Definition post_devices : handler := fun req now =>
  let b := body req in
  let image := image_of (req_file req) (Some "/uploads/placeholder.jpg") in
  try_catch
    (let* _ := query (insert_device (field "name" b) (field "model" b)
              (field "description" b) image (field "price" b)
              (field "status" b) (field "client_name" b)
              (field "client_phone" b)) in
     ret (status_json 201 (JMessage "Device added")))
    (status_json 500 (JError "Failed to add device")).

(** [PUT /api/devices/:id] (lines 158-171). *)
Definition put_device : handler := fun req now =>
  let id := params_id req in
  let b := body req in
  let image := image_of (req_file req) (field "image" b) in
  try_catch
    (let* _ := query (update_device (field "name" b) (field "model" b)
              (field "description" b) image (field "price" b)
              (field "status" b) (field "client_name" b)
              (field "client_phone" b) id) in
     ret (res_json (JMessage "Device updated")))
    (status_json 500 (JError "Failed to update device")).

(** [DELETE /api/devices/:id] (lines 174-182). *)
Definition delete_device_handler : handler := fun req now =>
  let id := params_id req in
  try_catch
    (let* _ := query (delete_device id) in
     ret (res_json (JMessage "Device deleted")))
    (status_json 500 (JError "Failed to delete device")).

(** [GET /api/services] (lines 186-198). *)
Definition get_services : handler := fun req now =>
  let page := page_of (query_page req) in
  let limit := limit_of (query_limit req) in
  let offset := number_mul (number_sub page (Finite 1)) limit in
  try_catch
    (let* selected := query (select_limit_offset services limit offset) in
     let* total := query (select_count services) in
     ret (res_json (JServices selected total page limit)))
    (status_json 500 (JError "Failed to fetch services")).

(** [POST /api/services] (lines 201-213). *)
Definition post_services : handler := fun req now =>
  let b := body req in
  let image := image_of (req_file req) (Some "/uploads/placeholder.jpg") in
  try_catch
    (let* _ := query (insert_service (field "title" b) (field "description" b)
              (field "price" b) image (field "duration" b)
              (field "category" b) (field "is_available" b)
              (field "technician" b)) in
     ret (status_json 201 (JMessage "Service added")))
    (status_json 500 (JError "Failed to add service")).

(** [PUT /api/services/:id] (lines 216-229). *)
Definition put_service : handler := fun req now =>
  let id := params_id req in
  let b := body req in
  let image := image_of (req_file req) (field "image" b) in
  try_catch
    (let* _ := query (update_service (field "title" b) (field "description" b)
              (field "price" b) image (field "duration" b)
              (field "category" b) (field "is_available" b)
              (field "technician" b) id) in
     ret (res_json (JMessage "Service updated")))
    (status_json 500 (JError "Failed to update service")).

(** [DELETE /api/services/:id] (lines 232-240). *)
Definition delete_service_handler : handler := fun req now =>
  let id := params_id req in
  try_catch
    (let* _ := query (delete_service id) in
     ret (res_json (JMessage "Service deleted")))
    (status_json 500 (JError "Failed to delete service")).

(** *** Route registrations *)

Inductive method := GET | POST | PUT | DELETE.

Definition method_eqb (a b : method) : bool :=
  match a, b with
  | GET, GET | POST, POST | PUT, PUT | DELETE, DELETE => true
  | _, _ => false
  end.

Definition middleware : Type := request -> Z -> verdict.

(** One [app.<verb>(path, ...middleware, handler)] call. *)
Record route := {
  verb : method;
  path : string;
  stack : list middleware;
  handle : handler
}.

(** The API routes in registration order (lines 92-240). *)
Definition routes : list route :=
  [ {| verb := POST; path := "/api/register"; stack := [];
       handle := register |};
    {| verb := POST; path := "/api/login"; stack := [];
       handle := login |};
    {| verb := GET; path := "/api/devices";
       stack := [authenticateToken]; handle := get_devices |};
    {| verb := POST; path := "/api/devices";
       stack := [authenticateToken; upload_single_image];
       handle := post_devices |};
    {| verb := PUT; path := "/api/devices/:id";
       stack := [authenticateToken; upload_single_image];
       handle := put_device |};
    {| verb := DELETE; path := "/api/devices/:id";
       stack := [authenticateToken]; handle := delete_device_handler |};
    {| verb := GET; path := "/api/services";
       stack := [authenticateToken]; handle := get_services |};
    {| verb := POST; path := "/api/services";
       stack := [authenticateToken; upload_single_image];
       handle := post_services |};
    {| verb := PUT; path := "/api/services/:id";
       stack := [authenticateToken; upload_single_image];
       handle := put_service |};
    {| verb := DELETE; path := "/api/services/:id";
       stack := [authenticateToken]; handle := delete_service_handler |} ].

(** Express runs the middleware of the matched route in order; the first
    one that answers ends the request, otherwise the handler runs on the
    request as the middleware left it. *)
Fixpoint run_stack (ms : list middleware) (h : handler)
  (req : request) (now : Z) (d : db) : response * db :=
  match ms with
  | [] => h req now d
  | m :: ms' =>
      match m req now with
      | Respond res => (res, d)
      | Next req' => run_stack ms' h req' now d
      end
  end.

Definition run_route (r : route) : handler :=
  run_stack (stack r) (handle r).

(** The route registered for a verb and a path pattern, if any; matching a
    URL against the patterns is Express's part. *)
Definition route_for (m : method) (p : string) : option route :=
  find (fun r => method_eqb (verb r) m && String.eqb (path r) p) routes.

Definition serve (m : method) (p : string) (req : request) (now : Z) (d : db)
  : option (response * db) :=
  option_map (fun r => run_route r req now d) (route_for m p).


(** *** An invariant of the [users] table *)

(** No row of [users] is found when the store looks up the email of a later
    row: the check [register] makes before each INSERT. *)
Definition emails_distinct (l : list user) : Prop :=
  forall l1 v l2 u,
    l = (l1 ++ v :: l2)%list -> In u l1 ->
    email_eq (user_email v) (user_email u) = false.

(** ** Properties *)

(** *** Parsing of [page] and [limit] *)

Example page_of_17 : page_of (QString "17") = Finite 17.
Proof. reflexivity. Qed.
Example page_of_hex : page_of (QString " 0x1f") = Finite 31.
Proof. reflexivity. Qed.
Example page_of_abc : page_of (QString "abc") = Finite 1.
Proof. reflexivity. Qed.
Example page_of_3abc : page_of (QString "3abc") = Finite 3.
Proof. reflexivity. Qed.
Example page_of_zero : page_of (QString "-0") = Finite 1.
Proof. reflexivity. Qed.
Example page_of_array : page_of (QArray ["2"; "3"]) = Finite 2.
Proof. reflexivity. Qed.
Example limit_of_object : limit_of QObject = Finite 10.
Proof. reflexivity. Qed.
Example page_of_rounded :
  page_of (QString "9007199254740993") = Finite 9007199254740992.
Proof. reflexivity. Qed.
Example nearest_double_1e23 :
  nearest_double 99999999999999999999999 = Finite 99999999999999991611392.
Proof. reflexivity. Qed.
Example split_bearer : split " " "Bearer abc.def" = ["Bearer"; "abc.def"].
Proof. reflexivity. Qed.
Example split_two_spaces : split " " "Bearer  abc" = ["Bearer"; ""; "abc"].
Proof. reflexivity. Qed.

Lemma decimal_digit_value (c : ascii) :
  is_decimal_digit c = true -> digit_value c = Some (code c - 48).
Proof.
  unfold is_decimal_digit, digit_value. intros H. now rewrite H.
Qed.

Lemma digit_below_ten (c : ascii) (d : Z) :
  digit_value c = Some d -> (d <? 10) = true -> is_decimal_digit c = true.
Proof.
  unfold digit_value, is_decimal_digit.
  destruct ((48 <=? code c) && (code c <=? 57)) eqn:E0; [reflexivity|].
  destruct ((97 <=? code c) && (code c <=? 122)) eqn:E1.
  - intros [= <-] H. apply andb_prop in E1. lia.
  - destruct ((65 <=? code c) && (code c <=? 90)) eqn:E2; [|discriminate].
    intros [= <-] H. apply andb_prop in E2. lia.
Qed.

Lemma decimal_digit_code (c : ascii) :
  is_decimal_digit c = true -> 48 <= code c <= 57.
Proof. unfold is_decimal_digit. intros H. apply andb_prop in H. lia. Qed.

Lemma decimal_digit_not_space (c : ascii) :
  is_decimal_digit c = true -> is_white_space c = false.
Proof.
  intros H. apply decimal_digit_code in H. unfold is_white_space.
  cbv zeta. lia.
Qed.

Lemma code_neq (c k : ascii) : code c <> code k -> (c =? k)%char = false.
Proof.
  intros H. destruct (Ascii.eqb_spec c k) as [->|]; [contradiction|reflexivity].
Qed.

Lemma decimal_digit_not_sign (c : ascii) :
  is_decimal_digit c = true -> ((c =? "+") || (c =? "-"))%char = false.
Proof.
  intros H. apply decimal_digit_code in H.
  rewrite !code_neq; [reflexivity| |]; cbn; lia.
Qed.

Lemma decimal_digit_not_x (c : ascii) :
  is_decimal_digit c = true -> ((c =? "x") || (c =? "X"))%char = false.
Proof.
  intros H. apply decimal_digit_code in H.
  rewrite !code_neq; [reflexivity| |]; cbn; lia.
Qed.

Lemma digits_prefix_decimal (s : string) (ds : list Z) :
  decimal_digits s = Some ds -> digits_prefix 10 s = ds.
Proof.
  revert ds. induction s as [|c r IH]; intros ds; cbn [decimal_digits digits_prefix].
  - now intros [= <-].
  - destruct (is_decimal_digit c) eqn:Hc; [|discriminate].
    rewrite (decimal_digit_value c Hc).
    pose proof (decimal_digit_code c Hc) as Hr.
    destruct (decimal_digits r) as [ds'|]; [|discriminate].
    cbn [option_map]. intros [= <-].
    replace (code c - 48 <? 10) with true by lia.
    now rewrite (IH ds').
Qed.

Lemma parseInt_decimal (s : string) (n : Z) :
  decimal_value s = Some n -> parseInt s = to_number n.
Proof.
  destruct s as [|c r]; [discriminate|].
  unfold decimal_value.
  destruct (decimal_digits (String c r)) as [ds|] eqn:Hds; [|discriminate].
  cbn [option_map]. intros [= <-].
  pose proof Hds as Hpre. apply digits_prefix_decimal in Hpre.
  cbn [decimal_digits] in Hds.
  destruct (is_decimal_digit c) eqn:Hc; [|discriminate].
  unfold parseInt. cbn [trim_start].
  rewrite (decimal_digit_not_space c Hc), (decimal_digit_not_sign c Hc).
  assert (Hminus : (c =? "-")%char = false).
  { pose proof (decimal_digit_not_sign c Hc) as H.
    apply orb_false_iff in H. exact (proj2 H). }
  rewrite Hminus.
  assert (Hstrip :
    match String c r with
    | String c0 (String x _) =>
        ((c0 =? "0") && ((x =? "x") || (x =? "X")))%char
    | _ => false
    end = false).
  { destruct r as [|x r']; [reflexivity|].
    cbn [decimal_digits] in Hds.
    destruct (is_decimal_digit x) eqn:Hx.
    - rewrite (decimal_digit_not_x x Hx). apply andb_false_r.
    - destruct (decimal_digits r'); discriminate. }
  rewrite Hstrip.
  assert (Hsame :
    match String c r with
    | String _ (String _ _) => String c r
    | _ => String c r
    end = String c r) by (destruct r; reflexivity).
  rewrite Hsame, Hpre.
  destruct ds as [|d ds'].
  - destruct (decimal_digits r); discriminate.
  - f_equal. lia.
Qed.

Lemma non_decimal_not_zero (c : ascii) :
  is_decimal_digit c = false -> (c =? "0")%char = false.
Proof.
  intros H. destruct (Ascii.eqb_spec c "0") as [->|]; [discriminate H|reflexivity].
Qed.

Lemma digits_prefix_non_decimal (s : string) :
  match s with
  | String c _ => is_decimal_digit c
  | EmptyString => false
  end = false ->
  digits_prefix 10 s = [].
Proof.
  destruct s as [|c r]; [reflexivity|]. intros H. cbn [digits_prefix].
  destruct (digit_value c) as [d|] eqn:Hd; [|reflexivity].
  destruct (d <? 10) eqn:Hlt; [|reflexivity].
  rewrite (digit_below_ten c d Hd Hlt) in H. discriminate.
Qed.

(** The steps of [parseInt] after the sign, on a string that does not begin
    with a decimal digit: no prefix is stripped and no digit is found. *)
Lemma no_digit_no_number (t : string) (sign : Z) :
  match t with
  | String c _ => is_decimal_digit c
  | EmptyString => false
  end = false ->
  let strip_prefix :=
    match t with
    | String c (String x _) => ((c =? "0") && ((x =? "x") || (x =? "X")))%char
    | _ => false
    end in
  let R := if strip_prefix then 16 else 10 in
  let s :=
    match t with
    | String _ (String _ r) => if strip_prefix then r else t
    | _ => t
    end in
  match digits_prefix R s with
  | [] => NaN
  | ds => to_number (sign * math_int R ds)
  end = NaN.
Proof.
  intros H. cbv zeta.
  assert (Hstrip :
    match t with
    | String c (String x _) => ((c =? "0") && ((x =? "x") || (x =? "X")))%char
    | _ => false
    end = false).
  { destruct t as [|c [|x r]]; try reflexivity.
    now rewrite (non_decimal_not_zero c H). }
  rewrite Hstrip.
  assert (Hsame :
    match t with
    | String _ (String _ _) => t
    | _ => t
    end = t) by (destruct t as [|c [|x r]]; reflexivity).
  rewrite Hsame, (digits_prefix_non_decimal t H). reflexivity.
Qed.

Lemma parseInt_no_digit (s : string) :
  begins_with_digit s = false -> parseInt s = NaN.
Proof.
  unfold begins_with_digit, parseInt. cbv zeta.
  destruct (trim_start s) as [|c r].
  - reflexivity.
  - destruct ((c =? "+") || (c =? "-"))%char; intros H.
    + exact (no_digit_no_number r _ H).
    + exact (no_digit_no_number (String c r) _ H).
Qed.

Lemma or_default_truthy (n d : number) :
  d <> NaN -> d <> Finite 0 ->
  or_default n d <> NaN /\ or_default n d <> Finite 0.
Proof.
  intros Hn Hz. destruct n as [|sg|z]; cbn.
  - now split.
  - split; discriminate.
  - destruct (z =? 0) eqn:E; [now split|].
    split; [discriminate|]. intros [= ->]. discriminate E.
Qed.

(** An integer of magnitude below 2^53 is its own double. *)
Lemma to_number_safe (z : Z) :
  - 9007199254740991 <= z <= 9007199254740991 -> to_number z = Finite z.
Proof.
  intros Hz. unfold to_number, nearest_double.
  change (2 ^ 53) with 9007199254740992.
  destruct (z <? 0) eqn:E.
  - replace (- z <? 9007199254740992) with true by lia.
    cbn. f_equal. lia.
  - now replace (z <? 9007199254740992) with true by lia.
Qed.

(** C1 (amended): [page] and [limit] are [parseInt(value) || default].  They
    are never [NaN] or zero; they are the defaults 1 and 10 when the
    parameter is absent, when its text does not begin (after leading white
    space and an optional sign) with a decimal digit, and whenever [parseInt]
    gives [NaN] or zero; whenever [parseInt] gives a positive integer [n],
    as it does on every decimal numeral of an [n] up to 2^53 - 1 (the
    integers a double holds exactly), they are [n]. *)
Theorem C1_page_limit_parse_or_default (q : qvalue) :
  ((page_of q <> NaN /\ page_of q <> Finite 0) /\
   (limit_of q <> NaN /\ limit_of q <> Finite 0)) /\
  (q = QUndefined -> page_of q = Finite 1 /\ limit_of q = Finite 10) /\
  (begins_with_digit (to_string q) = false ->
     page_of q = Finite 1 /\ limit_of q = Finite 10) /\
  (parseInt (to_string q) = NaN \/ parseInt (to_string q) = Finite 0 ->
     page_of q = Finite 1 /\ limit_of q = Finite 10) /\
  (forall n, parseInt (to_string q) = Finite n -> 0 < n ->
     page_of q = Finite n /\ limit_of q = Finite n) /\
  (forall s n, q = QString s -> decimal_value s = Some n ->
     0 < n <= 9007199254740991 ->
     page_of q = Finite n /\ limit_of q = Finite n).
Proof.
  unfold page_of, limit_of.
  assert (Hused : forall n, parseInt (to_string q) = Finite n -> 0 < n ->
            or_default (parseInt (to_string q)) (Finite 1) = Finite n /\
            or_default (parseInt (to_string q)) (Finite 10) = Finite n).
  { intros n H Hn. rewrite H. cbn.
    destruct (n =? 0) eqn:E; [lia|]. now split. }
  split; [|split; [|split; [|split; [|split]]]].
  - split; apply or_default_truthy; discriminate.
  - intros ->. now split.
  - intros H. rewrite (parseInt_no_digit _ H). now split.
  - intros [-> | ->]; now split.
  - exact Hused.
  - intros s n -> Hs Hn. apply Hused; [|lia].
    cbn [to_string]. rewrite (parseInt_decimal s n Hs).
    apply to_number_safe. lia.
Qed.

(** *** Queries *)

Lemma table_eta {A} (t : table A) :
  {| rows := rows t; auto_increment := auto_increment t |} = t.
Proof. now destruct t. Qed.

Lemma same_tables_with_faults (d : db) (f : list bool) :
  same_tables d (with_faults d f).
Proof. repeat split. Qed.

Lemma same_tables_refl (d : db) : same_tables d d.
Proof. repeat split. Qed.

Lemma query_answered {A} (st : statement A) (d : db) :
  answers 1 d = true ->
  query st d =
    match st (with_faults d (tl (faults d))) with
    | Some (a, d'') => (Ok a, d'')
    | None => (Thrown, with_faults d (tl (faults d)))
    end.
Proof.
  unfold answers, query. destruct (faults d) as [|[] f]; cbn;
    try discriminate; reflexivity.
Qed.

Lemma answers_next (n : nat) (d : db) :
  answers (S n) d = true ->
  answers 1 d = true /\ answers n (with_faults d (tl (faults d))) = true.
Proof.
  unfold answers. cbn [faults with_faults].
  destruct (faults d) as [|b f]; cbn.
  - intros _. split; [reflexivity|]. now destruct n.
  - destruct b; cbn; [discriminate|]. intros H. split; [now destruct f|exact H].
Qed.

Lemma map_no_match {A} (p : A -> bool) (f : A -> A) (l : list A) :
  (forall r, In r l -> p r = false) ->
  map (fun r => if p r then f r else r) l = l.
Proof.
  induction l as [|x l IH]; intros H; cbn; [reflexivity|].
  rewrite (H x (or_introl eq_refl)). f_equal. apply IH.
  intros r Hr. apply H. now right.
Qed.

Lemma filter_no_match {A} (p : A -> bool) (l : list A) :
  (forall r, In r l -> p r = false) ->
  filter (fun r => negb (p r)) l = l.
Proof.
  induction l as [|x l IH]; intros H; cbn; [reflexivity|].
  rewrite (H x (or_introl eq_refl)). cbn. f_equal. apply IH.
  intros r Hr. apply H. now right.
Qed.

(** *** Update and Delete on an id that matches no row *)

(** C2: when no row of the table matches the id of the request (and the
    store answers the query), PUT and DELETE on [/api/devices/:id] and
    [/api/services/:id] answer 200 with their success message, whatever the
    body, and leave every table as it was. *)
Theorem C2_update_delete_missing_id (req : request) (now : Z) (d : db) :
  answers 1 d = true ->
  ((forall r, In r (rows (devices d)) ->
      id_eq (params_id req) (Device.id r) = false) ->
   (exists d', put_device req now d =
                 (status_json 200 (JMessage "Device updated"), d') /\
               same_tables d d') /\
   (exists d', delete_device_handler req now d =
                 (status_json 200 (JMessage "Device deleted"), d') /\
               same_tables d d')) /\
  ((forall r, In r (rows (services d)) ->
      id_eq (params_id req) (Service.id r) = false) ->
   (exists d', put_service req now d =
                 (status_json 200 (JMessage "Service updated"), d') /\
               same_tables d d') /\
   (exists d', delete_service_handler req now d =
                 (status_json 200 (JMessage "Service deleted"), d') /\
               same_tables d d')).
Proof.
  intros Hup. split; intros Hmiss; split.
  - unfold put_device, try_catch, bind. rewrite (query_answered _ _ Hup).
    unfold update_device. cbn. eexists. split; [reflexivity|].
    repeat split. cbn.
    rewrite (map_no_match (fun r => id_eq (params_id req) (Device.id r)));
      [apply table_eta|exact Hmiss].
  - unfold delete_device_handler, try_catch, bind.
    rewrite (query_answered _ _ Hup).
    unfold delete_device. cbn. eexists. split; [reflexivity|].
    repeat split. cbn.
    rewrite (filter_no_match (fun r => id_eq (params_id req) (Device.id r)));
      [apply table_eta|exact Hmiss].
  - unfold put_service, try_catch, bind. rewrite (query_answered _ _ Hup).
    unfold update_service. cbn. eexists. split; [reflexivity|].
    repeat split. cbn.
    rewrite (map_no_match (fun r => id_eq (params_id req) (Service.id r)));
      [apply table_eta|exact Hmiss].
  - unfold delete_service_handler, try_catch, bind.
    rewrite (query_answered _ _ Hup).
    unfold delete_service. cbn. eexists. split; [reflexivity|].
    repeat split. cbn.
    rewrite (filter_no_match (fun r => id_eq (params_id req) (Service.id r)));
      [apply table_eta|exact Hmiss].
Qed.

(** *** The auth gate *)

Example bearer_token_ok :
  bearer_token (Some "Bearer abc.def") = Some "abc.def".
Proof. reflexivity. Qed.
Example bearer_token_missing : bearer_token None = None.
Proof. reflexivity. Qed.
Example bearer_token_basic : bearer_token (Some "Basic dXNlcg") = Some "dXNlcg".
Proof. reflexivity. Qed.

Lemma authenticateToken_401 (req : request) (now : Z) :
  truthy (bearer_token (authorization req)) = false ->
  authenticateToken req now =
    Respond (status_json 401 (JError "Token required")).
Proof.
  unfold authenticateToken. cbv zeta.
  destruct (bearer_token (authorization req)) as [[|c t]|]; cbn;
    try discriminate; reflexivity.
Qed.

Lemma authenticateToken_403 (req : request) (now : Z) (token : string) :
  bearer_token (authorization req) = Some token ->
  truthy (Some token) = true ->
  jwt_verify token JWT_SECRET now = None ->
  authenticateToken req now =
    Respond (status_json 403 (JError "Invalid token")).
Proof.
  unfold authenticateToken. cbv zeta. intros -> Ht Hv.
  destruct token as [|c t]; [discriminate|]. now rewrite Hv.
Qed.

Lemma authenticateToken_next (req : request) (now : Z) (token : string)
  (user : claims) :
  bearer_token (authorization req) = Some token ->
  truthy (Some token) = true ->
  jwt_verify token JWT_SECRET now = Some user ->
  authenticateToken req now = Next (set_user req user).
Proof.
  unfold authenticateToken. cbv zeta. intros -> Ht Hv.
  destruct token as [|c t]; [discriminate|]. now rewrite Hv.
Qed.

(** The routes under [/api/devices] and [/api/services] all start their
    stack with [authenticateToken], followed at most by the upload step. *)
Lemma resource_route_stack (r : route) :
  In r routes ->
  (prefix "/api/devices" (path r) || prefix "/api/services" (path r)) = true ->
  stack r = [authenticateToken] \/
  stack r = [authenticateToken; upload_single_image].
Proof.
  intros Hin. cbn in Hin.
  repeat (destruct Hin as [<-|Hin];
          [cbn [path stack]; intros H;
           first [left; reflexivity | right; reflexivity
                 | cbv in H; discriminate H]|]).
  contradiction.
Qed.

Lemma resource_route_401 (r : route) (req : request) (now : Z) (d : db) :
  In r routes ->
  (prefix "/api/devices" (path r) || prefix "/api/services" (path r)) = true ->
  truthy (bearer_token (authorization req)) = false ->
  run_route r req now d = (status_json 401 (JError "Token required"), d).
Proof.
  intros Hin Hres H. unfold run_route.
  destruct (resource_route_stack r Hin Hres) as [-> | ->]; cbn;
    now rewrite (authenticateToken_401 req now H).
Qed.

(** C3: every route under [/api/devices] and [/api/services] answers 401
    "Token required" when no bearer token can be extracted from the
    Authorization header, 403 "Invalid token" when the extracted token fails
    verification against the signing secret, and otherwise runs its handler
    on the request with the decoded claims attached; the register and login
    routes run their handler directly, whatever the header. *)
Theorem C3_auth_gate (r : route) (req : request) (now : Z) (d : db) :
  In r routes ->
  ((prefix "/api/devices" (path r) || prefix "/api/services" (path r)) = true ->
   (truthy (bearer_token (authorization req)) = false ->
    run_route r req now d =
      (status_json 401 (JError "Token required"), d)) /\
   (forall token,
      bearer_token (authorization req) = Some token ->
      truthy (Some token) = true ->
      jwt_verify token JWT_SECRET now = None ->
      run_route r req now d =
        (status_json 403 (JError "Invalid token"), d)) /\
   (forall token user,
      bearer_token (authorization req) = Some token ->
      truthy (Some token) = true ->
      jwt_verify token JWT_SECRET now = Some user ->
      exists req',
        (req' = set_user req user \/
         req' = set_file (set_user req user) (attachment req)) /\
        req_user req' = Some user /\
        run_route r req now d = handle r req' now d)) /\
  (path r = "/api/register" \/ path r = "/api/login" ->
   run_route r req now d = handle r req now d /\
   forall h, run_route r (set_authorization req h) now d =
             run_route r req now d).
Proof.
  intros Hin. split.
  - intros Hres. unfold run_route.
    destruct (resource_route_stack r Hin Hres) as [Hst | Hst];
      pose proof (resource_route_401 r req now d Hin Hres) as H401;
      unfold run_route in H401; rewrite Hst in *;
      (split; [exact H401|split]).
    + intros token H Ht Hv. cbn.
      now rewrite (authenticateToken_403 req now token H Ht Hv).
    + intros token user H Ht Hv. cbn.
      rewrite (authenticateToken_next req now token user H Ht Hv).
      exists (set_user req user). auto.
    + intros token H Ht Hv. cbn.
      now rewrite (authenticateToken_403 req now token H Ht Hv).
    + intros token user H Ht Hv. cbn.
      rewrite (authenticateToken_next req now token user H Ht Hv).
      exists (set_file (set_user req user) (attachment req)). auto.
  - intros Hpath. cbn in Hin.
    repeat (destruct Hin as [<-|Hin];
            [cbn in Hpath; destruct Hpath as [Hp|Hp];
             first [discriminate Hp
                   | split; [reflexivity|intros h; reflexivity]]|]).
    contradiction.
Qed.

Lemma split_without_separator (sep : ascii) (s : string) :
  (forall c, In c (list_ascii_of_string s) -> c <> sep) ->
  split sep s = [s].
Proof.
  induction s as [|c r IH]; intros H; cbn; [reflexivity|].
  destruct (Ascii.eqb_spec c sep) as [->|_].
  - exfalso. apply (H sep); [now left|reflexivity].
  - rewrite IH; [reflexivity|]. intros x Hx. apply H. now right.
Qed.

(** C9: when the Authorization header is present but holds no space, so
    that its split has no second piece, [authenticateToken] and with it every
    route under [/api/devices] and [/api/services] answers 401 "Token
    required", exactly as without the header.  The verification function does
    not occur in the answer: it is not consulted, and the 403 branch is not
    taken. *)
Theorem C9_header_without_space (r : route) (req : request) (now : Z)
  (d : db) (h : string) :
  In r routes ->
  (prefix "/api/devices" (path r) || prefix "/api/services" (path r)) = true ->
  authorization req = Some h ->
  (forall c, In c (list_ascii_of_string h) -> c <> " "%char) ->
  authenticateToken req now =
    Respond (status_json 401 (JError "Token required")) /\
  authenticateToken req now =
    authenticateToken (set_authorization req None) now /\
  run_route r req now d = (status_json 401 (JError "Token required"), d).
Proof.
  intros Hin Hres Hh Hsp.
  assert (Hno : truthy (bearer_token (authorization req)) = false).
  { rewrite Hh. destruct h as [|c t]; [reflexivity|].
    cbn [bearer_token]. now rewrite (split_without_separator _ _ Hsp). }
  split; [|split].
  - now apply authenticateToken_401.
  - rewrite (authenticateToken_401 req now Hno). reflexivity.
  - now apply resource_route_401.
Qed.

(** *** Register and Login *)

Lemma truthy_some (s : string) :
  truthy (Some s) = true -> exists c r, s = String c r.
Proof. destruct s as [|c r]; [discriminate|]. intros _. now exists c, r. Qed.

Lemma filter_none {A} (p : A -> bool) (l : list A) :
  (forall x, In x l -> p x = false) -> filter p l = [].
Proof.
  induction l as [|x l IH]; intros H; cbn; [reflexivity|].
  rewrite (H x (or_introl eq_refl)). apply IH. intros y Hy. apply H. now right.
Qed.


Lemma answers_tl (n : nat) (d d' : db) :
  answers (S n) d = true -> faults d' = tl (faults d) -> answers n d' = true.
Proof.
  intros H Hf. apply answers_next in H. destruct H as [_ H].
  unfold answers in *. now rewrite Hf.
Qed.

Lemma answers_le (n : nat) (d : db) :
  answers (S n) d = true -> answers n d = true.
Proof.
  unfold answers. revert n. induction (faults d) as [|b f IH]; intros n.
  - now destruct n.
  - destruct n as [|n]; [reflexivity|].
    change (firstn (S (S n)) (b :: f)) with (b :: firstn (S n) f).
    change (firstn (S n) (b :: f)) with (b :: firstn n f).
    cbn [forallb]. intros H. apply andb_prop in H. destruct H as [Hb H].
    rewrite Hb. cbn. now apply IH.
Qed.



Lemma register_created (req : request) (now : Z) (d : db) (e p : string) :
  field "email" (body req) = Some e ->
  field "password" (body req) = Some p ->
  truthy (Some e) = true -> truthy (Some p) = true ->
  answers 2 d = true ->
  (forall u, In u (rows (users d)) -> email_eq e (user_email u) = false) ->
  exists d',
    register req now d =
      (status_json 201 (JMessage "User registered"), d') /\
    rows (users d') =
      (rows (users d) ++
       [{| user_id := auto_increment (users d); user_email := e;
           user_password := p; user_role := "user" |}])%list /\
    devices d' = devices d /\ services d' = services d /\
    faults d' = tl (tl (faults d)).
Proof.
  intros He Hp Te Tp Hup Hnone. unfold register. rewrite He, Hp.
  destruct (truthy_some e Te) as (c & e' & ->).
  destruct (truthy_some p Tp) as (c' & p' & ->).
  destruct (answers_next _ _ Hup) as [Hup1 Hup2].
  unfold try_catch, bind. rewrite (query_answered _ _ Hup1).
  unfold select_users_by_email, users_with_email.
  cbn [users with_faults]. rewrite (filter_none _ _ Hnone).
  cbn [List.length Z.of_nat Z.ltb Z.compare].
  rewrite (query_answered _ _ Hup2).
  unfold insert_user. cbn. eexists. split; [reflexivity|].
  cbn. repeat split.
Qed.

Lemma strict_neq_true (supplied : option string) (stored : string) :
  strict_neq supplied stored = true <-> supplied <> Some stored.
Proof.
  unfold strict_neq. destruct supplied as [s|].
  - destruct (String.eqb_spec s stored) as [->|Hne]; cbn.
    + split; [discriminate|]. intros H. now contradiction H.
    + split; [|reflexivity]. intros _ [= H]. contradiction.
  - split; [|reflexivity]. intros _. discriminate.
Qed.

Lemma strict_neq_same (stored : string) :
  strict_neq (Some stored) stored = false.
Proof. cbn. now rewrite String.eqb_refl. Qed.

Lemma login_not_found (req : request) (now : Z) (d : db) :
  answers 1 d = true ->
  users_with_email (field "email" (body req)) d = [] ->
  exists d',
    login req now d = (status_json 401 (JError "User not found"), d') /\
    same_tables d d'.
Proof.
  intros Hup Hnone. unfold login, try_catch, bind. cbv zeta.
  rewrite (query_answered _ _ Hup). unfold select_users_by_email.
  replace (users_with_email (field "email" (body req))
             (with_faults d (tl (faults d))))
    with (users_with_email (field "email" (body req)) d) by reflexivity.
  rewrite Hnone. cbn. eexists. split; [reflexivity|].
  apply same_tables_with_faults.
Qed.

Lemma login_found (req : request) (now : Z) (d : db) (u : user)
  (rest : list user) :
  answers 1 d = true ->
  users_with_email (field "email" (body req)) d = u :: rest ->
  exists d',
    same_tables d d' /\
    login req now d =
      (if strict_neq (field "password" (body req)) (user_password u)
       then status_json 401 (JError "Invalid password")
       else
         match jwt_sign {| payload_id := user_id u;
                           payload_role := user_role u |}
                        JWT_SECRET "1h" now with
         | Some token => status_json 200 (JToken token (user_role u))
         | None => status_json 500 (JError "Login failed")
         end, d').
Proof.
  intros Hup Hsome. unfold login, try_catch, bind. cbv zeta.
  rewrite (query_answered _ _ Hup). unfold select_users_by_email.
  replace (users_with_email (field "email" (body req))
             (with_faults d (tl (faults d))))
    with (users_with_email (field "email" (body req)) d) by reflexivity.
  rewrite Hsome.
  exists (with_faults d (tl (faults d))).
  split; [apply same_tables_with_faults|].
  destruct (strict_neq (field "password" (body req)) (user_password u));
    [reflexivity|].
  unfold sign.
  destruct (jwt_sign _ JWT_SECRET "1h" now); reflexivity.
Qed.


(** C6: Login answers 401 "User not found" whenever the store has no user
    row for the email, and 401 "Invalid password" whenever the first row
    found holds a password other than the one supplied.  When its answer is
    200, the body is [{token, role}] for the row found, the supplied password
    is the stored one, and the token is what jsonwebtoken signs for
    [{id, role}] of that row with [expiresIn: '1h'], so that it decodes to
    that id and role and expires 3600 seconds after it was issued;
    conversely a matching password and a successful signature give that
    answer.  (All this while the store answers the query.) *)
Theorem C6_login (req : request) (now : Z) (d : db) :
  answers 1 d = true ->
  (users_with_email (field "email" (body req)) d = [] ->
   exists d',
     login req now d = (status_json 401 (JError "User not found"), d') /\
     same_tables d d') /\
  (forall u rest,
     users_with_email (field "email" (body req)) d = u :: rest ->
     (field "password" (body req) <> Some (user_password u) ->
      exists d',
        login req now d =
          (status_json 401 (JError "Invalid password"), d') /\
        same_tables d d') /\
     (forall token,
        field "password" (body req) = Some (user_password u) ->
        jwt_sign {| payload_id := user_id u; payload_role := user_role u |}
                 JWT_SECRET "1h" now = Some token ->
        exists d',
          login req now d =
            (status_json 200 (JToken token (user_role u)), d') /\
          same_tables d d')) /\
  (forall res d',
     login req now d = (res, d') -> status res = 200 ->
     exists u rest token,
       users_with_email (field "email" (body req)) d = u :: rest /\
       field "password" (body req) = Some (user_password u) /\
       jwt_sign {| payload_id := user_id u; payload_role := user_role u |}
                JWT_SECRET "1h" now = Some token /\
       json_body res = JToken token (user_role u) /\
       same_tables d d' /\
       (jwt_contract jwt_sign jwt_verify JWT_SECRET ->
        jwt_verify token JWT_SECRET now =
          Some {| claims_id := user_id u; claims_role := user_role u;
                  iat := now; exp := now + 3600 |})).
Proof.
  intros Hup. split; [|split].
  - now apply login_not_found.
  - intros u rest Hfound.
    destruct (login_found req now d u rest Hup Hfound) as (d' & Hsame & Hl).
    split.
    + intros Hne. apply strict_neq_true in Hne. rewrite Hne in Hl.
      now exists d'.
    + intros token Heq Hsign. rewrite Heq, strict_neq_same, Hsign in Hl.
      now exists d'.
  - intros res d' Hl H200.
    destruct (users_with_email (field "email" (body req)) d) as [|u rest]
      eqn:Hfound.
    + destruct (login_not_found req now d Hup Hfound) as (d1 & Hl1 & _).
      rewrite Hl1 in Hl. injection Hl as <- <-. discriminate H200.
    + destruct (login_found req now d u rest Hup Hfound) as (d1 & Hsame & Hl1).
      rewrite Hl1 in Hl.
      destruct (strict_neq (field "password" (body req)) (user_password u))
        eqn:Hpw.
      { injection Hl as <- <-. discriminate H200. }
      destruct (jwt_sign {| payload_id := user_id u;
                            payload_role := user_role u |}
                         JWT_SECRET "1h" now) as [token|] eqn:Hsign.
      2:{ injection Hl as <- <-. discriminate H200. }
      injection Hl as <- <-. exists u, rest, token.
      split; [reflexivity|].
      split; [|split; [exact Hsign|split; [reflexivity|split; [exact Hsame|]]]].
      * destruct (field "password" (body req)) as [s|]; [|discriminate Hpw].
        cbn in Hpw. apply negb_false_iff, String.eqb_eq in Hpw. now subst.
      * intros Hjwt.
        destruct (Hjwt {| payload_id := user_id u;
                          payload_role := user_role u |} now)
          as (token' & Hsign' & Hverify).
        rewrite Hsign in Hsign'. injection Hsign' as <-. exact Hverify.
Qed.

Lemma users_with_email_after_insert (d d' : db) (e : string) (u : user) :
  rows (users d') = (rows (users d) ++ [u])%list ->
  (forall v, In v (rows (users d)) -> email_eq e (user_email v) = false) ->
  email_eq e (user_email u) = true ->
  users_with_email (Some e) d' = [u].
Proof.
  intros Hrows Hnone Hsame. unfold users_with_email.
  rewrite Hrows, filter_app, (filter_none _ _ Hnone). cbn.
  now rewrite Hsame.
Qed.

(** C5: for an email and a password that are both non-empty, with the email
    not registered yet, Register answers 201 and a Login that follows with the
    same pair answers 200; the token it returns decodes to claims whose role
    is the role stored for the new user, "user".  (Assumed: the store
    answers the three queries and finds an email equal to itself, and
    jsonwebtoken signs and verifies as in [jwt_contract].) *)
Theorem C5_register_then_login (req : request) (now now' : Z) (d : db)
  (e p : string) :
  field "email" (body req) = Some e ->
  field "password" (body req) = Some p ->
  truthy (Some e) = true -> truthy (Some p) = true ->
  (forall u, In u (rows (users d)) -> email_eq e (user_email u) = false) ->
  email_eq e e = true ->
  answers 3 d = true ->
  jwt_contract jwt_sign jwt_verify JWT_SECRET ->
  exists d1 d2 u token c,
    register req now d = (status_json 201 (JMessage "User registered"), d1) /\
    users_with_email (Some e) d1 = [u] /\
    user_email u = e /\ user_password u = p /\ user_role u = "user" /\
    login req now' d1 = (status_json 200 (JToken token "user"), d2) /\
    jwt_verify token JWT_SECRET now' = Some c /\
    claims_id c = user_id u /\
    claims_role c = user_role u.
Proof.
  intros He Hp Te Tp Hnone Hrefl Hup Hjwt.
  destruct (register_created req now d e p He Hp Te Tp (answers_le _ _ Hup)
              Hnone) as (d1 & Hreg & Hrows & _ & _ & Hfaults).
  set (u := {| user_id := auto_increment (users d); user_email := e;
               user_password := p; user_role := "user" |}) in *.
  assert (Hfound : users_with_email (Some e) d1 = [u])
    by now apply (users_with_email_after_insert d d1 e u).
  assert (Hup1 : answers 1 d1 = true).
  { unfold answers in *. rewrite Hfaults.
    destruct (faults d) as [|b0 [|b1 [|b2 f]]]; try reflexivity.
    cbn in Hup |- *. destruct b0, b1, b2; try discriminate; reflexivity. }
  rewrite <- He in Hfound.
  destruct (login_found req now' d1 u [] Hup1 Hfound) as (d2 & _ & Hlogin).
  rewrite Hp in Hlogin. cbn [user_password u] in Hlogin.
  rewrite strict_neq_same in Hlogin.
  destruct (Hjwt {| payload_id := user_id u; payload_role := user_role u |}
              now') as (token & Hsign & Hverify).
  rewrite Hsign in Hlogin.
  rewrite He in Hfound.
  exists d1, d2, u, token.
  eexists. repeat split; try eassumption; reflexivity.
Qed.

(** *** List *)

Lemma select_page_answered {A} (tbl : db -> table A) (limit offset : Z)
  (d : db) :
  0 <= limit <= 18446744073709551615 ->
  0 <= offset <= 18446744073709551615 ->
  select_limit_offset tbl (Finite limit) (Finite offset) d =
    Some (firstn (Z.to_nat limit) (skipn (Z.to_nat offset) (rows (tbl d))), d).
Proof.
  intros Hl Ho. unfold select_limit_offset, sql_count.
  replace ((0 <=? limit) && (limit <=? 18446744073709551615)) with true
    by lia.
  replace ((0 <=? offset) && (offset <=? 18446744073709551615)) with true
    by lia.
  reflexivity.
Qed.

(** [(page - 1) * limit] is computed exactly while [page * limit] stays
    below 2^53. *)
Lemma offset_exact (p l : Z) :
  0 < p -> 0 < l -> p * l <= 9007199254740991 ->
  number_mul (number_sub (Finite p) (Finite 1)) (Finite l)
  = Finite ((p - 1) * l).
Proof.
  intros Hp Hl Hb. cbn [number_sub].
  rewrite to_number_safe by nia. cbn [number_mul].
  apply to_number_safe. nia.
Qed.

Lemma get_devices_page (req : request) (now : Z) (d : db) (p l : Z) :
  page_of (query_page req) = Finite p ->
  limit_of (query_limit req) = Finite l ->
  0 < p -> 0 < l -> p * l <= 9007199254740991 ->
  answers 2 d = true ->
  exists d',
    get_devices req now d =
      (status_json 200
         (JDevices
            (firstn (Z.to_nat l) (skipn (Z.to_nat ((p - 1) * l))
                                    (rows (devices d))))
            (Z.of_nat (List.length (rows (devices d))))
            (Finite p) (Finite l)), d') /\
    same_tables d d'.
Proof.
  intros Ep El Hp Hl Hb Hup. destruct (answers_next _ _ Hup) as [Hup1 Hup2].
  unfold get_devices, try_catch, bind. cbv zeta.
  rewrite Ep, El, (offset_exact p l Hp Hl Hb).
  rewrite (query_answered _ _ Hup1), select_page_answered by nia.
  rewrite (query_answered _ _ Hup2). unfold select_count. cbn.
  eexists. split; [reflexivity|]. repeat split.
Qed.

Lemma get_services_page (req : request) (now : Z) (d : db) (p l : Z) :
  page_of (query_page req) = Finite p ->
  limit_of (query_limit req) = Finite l ->
  0 < p -> 0 < l -> p * l <= 9007199254740991 ->
  answers 2 d = true ->
  exists d',
    get_services req now d =
      (status_json 200
         (JServices
            (firstn (Z.to_nat l) (skipn (Z.to_nat ((p - 1) * l))
                                    (rows (services d))))
            (Z.of_nat (List.length (rows (services d))))
            (Finite p) (Finite l)), d') /\
    same_tables d d'.
Proof.
  intros Ep El Hp Hl Hb Hup. destruct (answers_next _ _ Hup) as [Hup1 Hup2].
  unfold get_services, try_catch, bind. cbv zeta.
  rewrite Ep, El, (offset_exact p l Hp Hl Hb).
  rewrite (query_answered _ _ Hup1), select_page_answered by nia.
  rewrite (query_answered _ _ Hup2). unfold select_count. cbn.
  eexists. split; [reflexivity|]. repeat split.
Qed.

Lemma second_page_of_five {A} (l1 l2 l3 : list A) :
  List.length l1 = 5%nat -> List.length l2 = 5%nat ->
  firstn 5 (skipn 5 (l1 ++ l2 ++ l3)) = l2.
Proof.
  intros H1 H2.
  destruct l1 as [|a1 [|a2 [|a3 [|a4 [|a5 [|a6 l1]]]]]]; try discriminate H1.
  destruct l2 as [|b1 [|b2 [|b3 [|b4 [|b5 [|b6 l2]]]]]]; try discriminate H2.
  reflexivity.
Qed.

(** C7 (amended): a List request whose parsed [page] and [limit] are
    positive integers [p] and [l] with [p * l] at most 2^53 - 1 (and a store
    that answers its two queries) returns the rows of the table from offset
    [(p - 1) * l] on, at most [l] of them, in store order, with [total] the
    number of rows of the whole table; with [p = 2] and [l = 5] on a table of
    at least ten rows these are rows 6 to 10. *)
Theorem C7_list_slice (req : request) (now : Z) (d : db) (p l : Z) :
  page_of (query_page req) = Finite p ->
  limit_of (query_limit req) = Finite l ->
  0 < p -> 0 < l -> p * l <= 9007199254740991 ->
  answers 2 d = true ->
  (exists d',
     get_devices req now d =
       (status_json 200
          (JDevices (slice_of_page p l (rows (devices d)))
             (Z.of_nat (List.length (rows (devices d))))
             (Finite p) (Finite l)), d') /\
     same_tables d d') /\
  (exists d',
     get_services req now d =
       (status_json 200
          (JServices (slice_of_page p l (rows (services d)))
             (Z.of_nat (List.length (rows (services d))))
             (Finite p) (Finite l)), d') /\
     same_tables d d') /\
  (forall A (rs : list A),
     (List.length (slice_of_page p l rs) <= Z.to_nat l)%nat) /\
  (forall l1 l2 l3,
     p = 2 -> l = 5 ->
     rows (devices d) = (l1 ++ l2 ++ l3)%list ->
     List.length l1 = 5%nat -> List.length l2 = 5%nat ->
     exists d',
       get_devices req now d =
         (status_json 200
            (JDevices l2 (Z.of_nat (List.length (rows (devices d))))
               (Finite 2) (Finite 5)),
          d')) /\
  (forall l1 l2 l3,
     p = 2 -> l = 5 ->
     rows (services d) = (l1 ++ l2 ++ l3)%list ->
     List.length l1 = 5%nat -> List.length l2 = 5%nat ->
     exists d',
       get_services req now d =
         (status_json 200
            (JServices l2 (Z.of_nat (List.length (rows (services d))))
               (Finite 2) (Finite 5)),
          d')).
Proof.
  intros Ep El Hp Hl Hb Hup. split; [|split; [|split; [|split]]].
  - exact (get_devices_page req now d p l Ep El Hp Hl Hb Hup).
  - exact (get_services_page req now d p l Ep El Hp Hl Hb Hup).
  - intros A rs. unfold slice_of_page. apply firstn_le_length.
  - intros l1 l2 l3 H2 H5 Hrows H1 H2'. subst p l.
    destruct (get_devices_page req now d 2 5 Ep El Hp Hl Hb Hup)
      as (d' & Hget & _).
    exists d'. rewrite Hget, Hrows.
    change (Z.to_nat 5) with 5%nat. change (Z.to_nat ((2 - 1) * 5)) with 5%nat.
    now rewrite second_page_of_five.
  - intros l1 l2 l3 H2 H5 Hrows H1 H2'. subst p l.
    destruct (get_services_page req now d 2 5 Ep El Hp Hl Hb Hup)
      as (d' & Hget & _).
    exists d'. rewrite Hget, Hrows.
    change (Z.to_nat 5) with 5%nat. change (Z.to_nat ((2 - 1) * 5)) with 5%nat.
    now rewrite second_page_of_five.
Qed.

Lemma get_devices_same_tables (req : request) (now : Z) (d : db) :
  same_tables d (snd (get_devices req now d)).
Proof.
  unfold get_devices, try_catch, bind, query, select_limit_offset,
    select_count. cbv zeta.
  destruct (faults d) as [|[] [|[] f]];
    destruct (sql_count (limit_of (query_limit req)));
    destruct (sql_count
                (number_mul (number_sub (page_of (query_page req)) (Finite 1))
                   (limit_of (query_limit req)))); cbn; repeat split.
Qed.

Lemma get_services_same_tables (req : request) (now : Z) (d : db) :
  same_tables d (snd (get_services req now d)).
Proof.
  unfold get_services, try_catch, bind, query, select_limit_offset,
    select_count. cbv zeta.
  destruct (faults d) as [|[] [|[] f]];
    destruct (sql_count (limit_of (query_limit req)));
    destruct (sql_count
                (number_mul (number_sub (page_of (query_page req)) (Finite 1))
                   (limit_of (query_limit req)))); cbn; repeat split.
Qed.

Lemma run_gate_same_tables (h : handler) (req : request) (now : Z) (d : db) :
  (forall req', same_tables d (snd (h req' now d))) ->
  same_tables d (snd (run_stack [authenticateToken] h req now d)).
Proof.
  intros Hh. cbn [run_stack].
  destruct (authenticateToken req now) as [res|req'];
    [apply same_tables_refl|apply Hh].
Qed.

(** C10: List is read-only.  Whatever the request and the state of the
    store, the handlers of GET [/api/devices] and GET [/api/services], and
    the two routes as registered (gate included), leave the three tables as
    they were, on every path: 200, 401, 403 and 500. *)
Theorem C10_list_read_only (req : request) (now : Z) (d : db) :
  same_tables d (snd (get_devices req now d)) /\
  same_tables d (snd (get_services req now d)) /\
  (exists res d',
     serve GET "/api/devices" req now d = Some (res, d') /\
     same_tables d d') /\
  (exists res d',
     serve GET "/api/services" req now d = Some (res, d') /\
     same_tables d d').
Proof.
  split; [apply get_devices_same_tables|].
  split; [apply get_services_same_tables|].
  split.
  - pose proof (run_gate_same_tables get_devices req now d
                  (fun r => get_devices_same_tables r now d)) as H.
    destruct (run_stack [authenticateToken] get_devices req now d)
      as [res d'] eqn:E.
    exists res, d'. split; [|exact H].
    unfold serve, route_for. cbn [find routes verb path method_eqb andb
      String.eqb Ascii.eqb Bool.eqb option_map]. unfold run_route.
    cbn [stack handle]. now rewrite E.
  - pose proof (run_gate_same_tables get_services req now d
                  (fun r => get_services_same_tables r now d)) as H.
    destruct (run_stack [authenticateToken] get_services req now d)
      as [res d'] eqn:E.
    exists res, d'. split; [|exact H].
    unfold serve, route_for. cbn [find routes verb path method_eqb andb
      String.eqb Ascii.eqb Bool.eqb option_map]. unfold run_route.
    cbn [stack handle]. now rewrite E.
Qed.

(** *** The image reference *)

Lemma in_map_if {A} (p : A -> bool) (f : A -> A) (l : list A) (y : A) :
  In y (map (fun r => if p r then f r else r) l) ->
  exists r, In r l /\ y = (if p r then f r else r).
Proof.
  intros H. apply in_map_iff in H. destruct H as (r & <- & Hr). now exists r.
Qed.

Lemma upload_route_runs (h : handler) (req : request) (now : Z) (d : db)
  (token : string) (user : claims) :
  bearer_token (authorization req) = Some token ->
  truthy (Some token) = true ->
  jwt_verify token JWT_SECRET now = Some user ->
  run_stack [authenticateToken; upload_single_image] h req now d =
    h (set_file (set_user req user) (attachment req)) now d.
Proof.
  intros Ht Htr Hv. cbn [run_stack].
  now rewrite (authenticateToken_next req now token user Ht Htr Hv).
Qed.

(** C8: on the routes as registered, for a request with a valid token (and a
    store that answers the query).  POST stores, in the one row it appends,
    the path of the uploaded file, ["/uploads/"] followed by the name the
    disk storage gave it, when the request has an [image] part, and
    ["/uploads/placeholder.jpg"] when it has none.  PUT leaves the ids of the
    table as they were and stores, in every row it matches, the path of the
    uploaded file when the request has an [image] part and otherwise the
    [image] value of the request body as it came (absent included).  Both
    resources behave alike. *)
Theorem C8_image_reference (req : request) (now : Z) (d : db)
  (token : string) (user : claims) :
  bearer_token (authorization req) = Some token ->
  truthy (Some token) = true ->
  jwt_verify token JWT_SECRET now = Some user ->
  answers 1 d = true ->
  (exists d' r,
     serve POST "/api/devices" req now d =
       Some (status_json 201 (JMessage "Device added"), d') /\
     rows (devices d') = (rows (devices d) ++ [r])%list /\
     Device.image r =
       match image_part req with
       | Some p => Some ("/uploads/" ++ storage_filename p)
       | None => Some "/uploads/placeholder.jpg"
       end) /\
  (exists d' r,
     serve POST "/api/services" req now d =
       Some (status_json 201 (JMessage "Service added"), d') /\
     rows (services d') = (rows (services d) ++ [r])%list /\
     Service.image r =
       match image_part req with
       | Some p => Some ("/uploads/" ++ storage_filename p)
       | None => Some "/uploads/placeholder.jpg"
       end) /\
  (exists d',
     serve PUT "/api/devices/:id" req now d =
       Some (status_json 200 (JMessage "Device updated"), d') /\
     map Device.id (rows (devices d')) = map Device.id (rows (devices d)) /\
     forall r, In r (rows (devices d')) ->
       id_eq (params_id req) (Device.id r) = true ->
       Device.image r =
         match image_part req with
         | Some p => Some ("/uploads/" ++ storage_filename p)
         | None => field "image" (body req)
         end) /\
  (exists d',
     serve PUT "/api/services/:id" req now d =
       Some (status_json 200 (JMessage "Service updated"), d') /\
     map Service.id (rows (services d')) = map Service.id (rows (services d)) /\
     forall r, In r (rows (services d')) ->
       id_eq (params_id req) (Service.id r) = true ->
       Service.image r =
         match image_part req with
         | Some p => Some ("/uploads/" ++ storage_filename p)
         | None => field "image" (body req)
         end).
Proof.
  intros Ht Htr Hv Hup.
  assert (Himg : forall otherwise,
            image_of (attachment req) otherwise =
            match image_part req with
            | Some p => Some ("/uploads/" ++ storage_filename p)
            | None => otherwise
            end).
  { intros o. unfold attachment. now destruct (image_part req). }
  split; [|split; [|split]].
  - unfold serve, route_for.
    cbn [find routes verb path method_eqb andb String.eqb Ascii.eqb Bool.eqb
         option_map].
    unfold run_route. cbn [stack handle].
    rewrite (upload_route_runs _ req now d token user Ht Htr Hv).
    unfold post_devices, try_catch, bind. cbv zeta.
    rewrite (query_answered _ _ Hup). unfold insert_device.
    cbn [req_file set_file set_user body]. rewrite Himg. cbn.
    eexists. eexists. split; [reflexivity|]. split; reflexivity.
  - unfold serve, route_for.
    cbn [find routes verb path method_eqb andb String.eqb Ascii.eqb Bool.eqb
         option_map].
    unfold run_route. cbn [stack handle].
    rewrite (upload_route_runs _ req now d token user Ht Htr Hv).
    unfold post_services, try_catch, bind. cbv zeta.
    rewrite (query_answered _ _ Hup). unfold insert_service.
    cbn [req_file set_file set_user body]. rewrite Himg. cbn.
    eexists. eexists. split; [reflexivity|]. split; reflexivity.
  - unfold serve, route_for.
    cbn [find routes verb path method_eqb andb String.eqb Ascii.eqb Bool.eqb
         option_map].
    unfold run_route. cbn [stack handle].
    rewrite (upload_route_runs _ req now d token user Ht Htr Hv).
    unfold put_device, try_catch, bind. cbv zeta.
    rewrite (query_answered _ _ Hup). unfold update_device.
    cbn [req_file set_file set_user body params_id]. rewrite Himg. cbn.
    eexists. split; [reflexivity|]. cbn. split.
    + rewrite map_map. apply map_ext. intros r.
      now destruct (id_eq (params_id req) (Device.id r)).
    + intros r Hr Hid. apply in_map_if in Hr. destruct Hr as (r0 & _ & ->).
      destruct (id_eq (params_id req) (Device.id r0)) eqn:E.
      * reflexivity.
      * rewrite E in Hid. discriminate.
  - unfold serve, route_for.
    cbn [find routes verb path method_eqb andb String.eqb Ascii.eqb Bool.eqb
         option_map].
    unfold run_route. cbn [stack handle].
    rewrite (upload_route_runs _ req now d token user Ht Htr Hv).
    unfold put_service, try_catch, bind. cbv zeta.
    rewrite (query_answered _ _ Hup). unfold update_service.
    cbn [req_file set_file set_user body params_id]. rewrite Himg. cbn.
    eexists. split; [reflexivity|]. cbn. split.
    + rewrite map_map. apply map_ext. intros r.
      now destruct (id_eq (params_id req) (Service.id r)).
    + intros r Hr Hid. apply in_map_if in Hr. destruct Hr as (r0 & _ & ->).
      destruct (id_eq (params_id req) (Service.id r0)) eqn:E.
      * reflexivity.
      * rewrite E in Hid. discriminate.
Qed.

(** ** Further properties of the handlers *)

(** *** What each route may write *)

Lemma run_stack_keeps {T} (f : db -> T) (ms : list middleware) (h : handler)
  (req : request) (now : Z) (d : db) :
  (forall req', f (snd (h req' now d)) = f d) ->
  f (snd (run_stack ms h req now d)) = f d.
Proof.
  intros Hh. revert req. induction ms as [|m ms IH]; intros req; cbn.
  - apply Hh.
  - destruct (m req now); [reflexivity|apply IH].
Qed.

Ltac run_queries :=
  unfold try_catch, bind, query, sign, ret; cbv zeta.

Lemma register_keeps_resources (req : request) (now : Z) (d : db) :
  devices (snd (register req now d)) = devices d /\
  services (snd (register req now d)) = services d.
Proof.
  unfold register.
  destruct (field "email" (body req)) as [[|c e]|];
    destruct (field "password" (body req)) as [[|c' p]|];
    try (split; reflexivity).
  run_queries. unfold select_users_by_email, insert_user.
  destruct (faults d) as [|[] [|[] f]]; cbn;
    try (split; reflexivity);
    match goal with
    | |- context [if ?b then _ else _] => destruct b
    end; cbn; split; reflexivity.
Qed.

Lemma login_same_tables (req : request) (now : Z) (d : db) :
  same_tables d (snd (login req now d)).
Proof.
  destruct (answers 1 d) eqn:Hup.
  - destruct (users_with_email (field "email" (body req)) d) as [|u rest]
      eqn:Hu.
    + destruct (login_not_found req now d Hup Hu) as (d' & -> & H). exact H.
    + destruct (login_found req now d u rest Hup Hu) as (d' & H & ->).
      exact H.
  - unfold answers in Hup.
    destruct (faults d) as [|[] f] eqn:Hf; try discriminate Hup.
    unfold login. run_queries. rewrite Hf. cbn. repeat split.
Qed.

Lemma device_writers_keep_others (req : request) (now : Z) (d : db) :
  (users (snd (post_devices req now d)) = users d /\
   services (snd (post_devices req now d)) = services d) /\
  (users (snd (put_device req now d)) = users d /\
   services (snd (put_device req now d)) = services d) /\
  (users (snd (delete_device_handler req now d)) = users d /\
   services (snd (delete_device_handler req now d)) = services d).
Proof.
  unfold post_devices, put_device, delete_device_handler. run_queries.
  unfold insert_device, update_device, delete_device.
  destruct (faults d) as [|[] f]; cbn; repeat split.
Qed.

Lemma service_writers_keep_others (req : request) (now : Z) (d : db) :
  (users (snd (post_services req now d)) = users d /\
   devices (snd (post_services req now d)) = devices d) /\
  (users (snd (put_service req now d)) = users d /\
   devices (snd (put_service req now d)) = devices d) /\
  (users (snd (delete_service_handler req now d)) = users d /\
   devices (snd (delete_service_handler req now d)) = devices d).
Proof.
  unfold post_services, put_service, delete_service_handler. run_queries.
  unfold insert_service, update_service, delete_service.
  destruct (faults d) as [|[] f]; cbn; repeat split.
Qed.

Lemma other_routes_keep_users (r : route) (req : request) (now : Z)
  (d : db) :
  In r routes -> path r <> "/api/register" ->
  users (snd (run_route r req now d)) = users d.
Proof.
  intros Hin H. unfold run_route. cbn in Hin.
  destruct Hin as [<-|[<-|[<-|[<-|[<-|[<-|[<-|[<-|[<-|[<-|[]]]]]]]]]]];
    cbn [path verb stack handle] in *;
    try (exfalso; apply H; reflexivity);
    apply run_stack_keeps; intros req';
    first
      [ apply login_same_tables
      | apply get_devices_same_tables
      | apply get_services_same_tables
      | apply (device_writers_keep_others req' now d)
      | apply (service_writers_keep_others req' now d) ].
Qed.

(** X1: whatever the request and the state of the store, a route writes at
    most its own table.  Only POST [/api/register] can change [users]; only
    POST, PUT and DELETE under [/api/devices] can change [devices]; only
    POST, PUT and DELETE under [/api/services] can change [services].  This
    holds on every path through the gate, the upload step and the handler. *)
Theorem X1_routes_write_their_own_table (r : route) (req : request)
  (now : Z) (d : db) :
  In r routes ->
  (path r <> "/api/register" ->
   users (snd (run_route r req now d)) = users d) /\
  (prefix "/api/devices" (path r) = false \/ verb r = GET ->
   devices (snd (run_route r req now d)) = devices d) /\
  (prefix "/api/services" (path r) = false \/ verb r = GET ->
   services (snd (run_route r req now d)) = services d).
Proof.
  intros Hin. unfold run_route. cbn in Hin.
  destruct Hin as [<-|[<-|[<-|[<-|[<-|[<-|[<-|[<-|[<-|[<-|[]]]]]]]]]]];
    cbn [path verb stack handle];
    (split; [|split]); intros H;
    try (exfalso; destruct H as [H|H]; cbv in H; discriminate H);
    try (exfalso; apply H; reflexivity);
    apply run_stack_keeps; intros req';
    first
      [ apply register_keeps_resources
      | apply login_same_tables
      | apply get_devices_same_tables
      | apply get_services_same_tables
      | apply (device_writers_keep_others req' now d)
      | apply (service_writers_keep_others req' now d) ].
Qed.

(** *** Register and the [users] table *)

Lemma filter_nil_none {A} (p : A -> bool) (l : list A) :
  filter p l = [] -> forall x, In x l -> p x = false.
Proof.
  intros H x Hx. destruct (p x) eqn:E; [|reflexivity].
  assert (Hin : In x (filter p l)) by (apply filter_In; now split).
  rewrite H in Hin. contradiction.
Qed.

Lemma query_fault {A} (st : statement A) (d : db) (f : list bool) :
  faults d = true :: f -> query st d = (Thrown, with_faults d f).
Proof. intros H. unfold query. now rewrite H. Qed.

Lemma not_answered (d : db) :
  answers 1 d = false -> exists f, faults d = true :: f.
Proof.
  unfold answers. destruct (faults d) as [|[] f]; try discriminate.
  intros _. now exists f.
Qed.

(** What [register] does to [users], on every path. *)
Lemma register_users (req : request) (now : Z) (d : db) :
  (status (fst (register req now d)) <> 201 /\
   users (snd (register req now d)) = users d) \/
  (status (fst (register req now d)) = 201 /\
   exists e p,
     field "email" (body req) = Some e /\
     field "password" (body req) = Some p /\
     truthy (Some e) = true /\ truthy (Some p) = true /\
     users_with_email (Some e) d = [] /\
     users (snd (register req now d)) =
       {| rows := rows (users d) ++
                  [{| user_id := auto_increment (users d); user_email := e;
                      user_password := p; user_role := "user" |}];
          auto_increment := auto_increment (users d) + 1 |}).
Proof.
  unfold register.
  destruct (field "email" (body req)) as [[|c e]|];
    destruct (field "password" (body req)) as [[|c' p]|];
    try (left; split; [discriminate|reflexivity]).
  unfold try_catch, bind.
  destruct (answers 1 d) eqn:H1.
  - rewrite (query_answered _ _ H1). unfold select_users_by_email.
    change (users_with_email (Some (String c e))
              (with_faults d (tl (faults d))))
      with (users_with_email (Some (String c e)) d).
    destruct (users_with_email (Some (String c e)) d) as [|u rest] eqn:Hu.
    + cbn [List.length Z.of_nat Z.ltb Z.compare].
      destruct (answers 1 (with_faults d (tl (faults d)))) eqn:H2.
      * rewrite (query_answered _ _ H2). unfold insert_user. cbn.
        right. split; [reflexivity|].
        exists (String c e), (String c' p). repeat split. exact Hu.
      * destruct (not_answered _ H2) as (f & Hf).
        rewrite (query_fault _ _ f Hf). cbn.
        left. split; [discriminate|reflexivity].
    + replace (0 <? Z.of_nat (List.length (u :: rest))) with true
        by (symmetry; apply Z.ltb_lt; cbn [List.length]; lia).
      cbn. left. split; [discriminate|reflexivity].
  - destruct (not_answered _ H1) as (f & Hf).
    rewrite (query_fault _ _ f Hf). cbn.
    left. split; [discriminate|reflexivity].
Qed.

Lemma emails_distinct_snoc (l : list user) (v : user) :
  emails_distinct l ->
  (forall u, In u l -> email_eq (user_email v) (user_email u) = false) ->
  emails_distinct (l ++ [v]).
Proof.
  intros Hl Hv l1 w l2 u Heq Hu.
  destruct l2 as [|x l2'] using rev_ind.
  - apply app_inj_tail in Heq. destruct Heq as [-> ->]. now apply Hv.
  - clear IHl2'.
    change (l1 ++ w :: l2' ++ [x])%list
      with (l1 ++ (w :: l2') ++ [x])%list in Heq.
    rewrite app_assoc in Heq. apply app_inj_tail in Heq.
    destruct Heq as [-> _]. now apply (Hl l1 w l2' u).
Qed.

Lemma register_keeps_emails_distinct (req : request) (now : Z) (d : db) :
  emails_distinct (rows (users d)) ->
  emails_distinct (rows (users (snd (register req now d)))).
Proof.
  intros Hd.
  destruct (register_users req now d)
    as [[_ ->]|(_ & e & p & _ & _ & _ & _ & Hnone & ->)]; [exact Hd|].
  cbn [rows]. apply emails_distinct_snoc; [exact Hd|].
  cbn [user_email]. now apply filter_nil_none.
Qed.

Lemma route_keeps_emails_distinct (r : route) (req : request) (now : Z)
  (d : db) :
  In r routes ->
  emails_distinct (rows (users d)) ->
  emails_distinct (rows (users (snd (run_route r req now d)))).
Proof.
  intros Hin Hd.
  destruct (String.eqb_spec (path r) "/api/register") as [Hp|Hp].
  - cbn in Hin.
    destruct Hin as [<-|[<-|[<-|[<-|[<-|[<-|[<-|[<-|[<-|[<-|[]]]]]]]]]]];
      try discriminate Hp.
    now apply register_keeps_emails_distinct.
  - now rewrite (other_routes_keep_users r req now d Hin Hp).
Qed.

(** X2: Register never deletes or alters a user row.  On every path the
    [users] table afterwards is the old one, or, exactly when the answer is
    201, the old one followed by one row that holds the email and password of
    the body, the role "user" and the next id. *)
Theorem X2_register_only_appends (req : request) (now : Z) (d : db) :
  exists appended,
    rows (users (snd (register req now d))) =
      (rows (users d) ++ appended)%list /\
    (status (fst (register req now d)) <> 201 -> appended = []) /\
    (status (fst (register req now d)) = 201 ->
     exists e p,
       field "email" (body req) = Some e /\
       field "password" (body req) = Some p /\
       appended = [{| user_id := auto_increment (users d); user_email := e;
                      user_password := p; user_role := "user" |}]).
Proof.
  destruct (register_users req now d)
    as [[Hs ->]|(Hs & e & p & He & Hp & _ & _ & _ & ->)].
  - exists []. split; [now rewrite app_nil_r|]. split; [reflexivity|].
    intros H. contradiction.
  - eexists. split; [reflexivity|]. split.
    + intros H. contradiction.
    + intros _. now exists e, p.
Qed.

(** X3: the emails of [users] stay distinct under every sequence of API
    requests that the server handles one at a time.  If no row is found by
    the email of a later row, this is still so after the server has handled,
    each to its end before the next begins, any list of requests on its
    registered routes, whatever their outcome.  Requests that overlap, such
    as two registrations both past their SELECT before either INSERT, are
    not covered. *)
Theorem X3_emails_stay_distinct (trace : list (route * request * Z))
  (d : db) :
  (forall x, In x trace -> In (fst (fst x)) routes) ->
  emails_distinct (rows (users d)) ->
  emails_distinct
    (rows (users
       (fold_left
          (fun d x => snd (run_route (fst (fst x)) (snd (fst x)) (snd x) d))
          trace d))).
Proof.
  revert d. induction trace as [|x trace IH]; intros d Hin Hd; cbn.
  - exact Hd.
  - apply IH.
    + intros y Hy. apply Hin. now right.
    + apply route_keeps_emails_distinct; [|exact Hd]. apply Hin. now left.
Qed.

(** *** When the store fails *)

(** X4: when the connection fails on the first query of a request, every
    handler answers 500 with its own generic message, and the pool only moves
    past the failed query: no table changes.  (Register reaches its first
    query only with a non-empty email and password.) *)
Theorem X4_store_failure_is_500 (req : request) (now : Z) (d : db)
  (f : list bool) :
  faults d = true :: f ->
  (truthy (field "email" (body req)) = true ->
   truthy (field "password" (body req)) = true ->
   register req now d =
     (status_json 500 (JError "Registration failed"), with_faults d f)) /\
  login req now d =
    (status_json 500 (JError "Login failed"), with_faults d f) /\
  get_devices req now d =
    (status_json 500 (JError "Failed to fetch devices"), with_faults d f) /\
  post_devices req now d =
    (status_json 500 (JError "Failed to add device"), with_faults d f) /\
  put_device req now d =
    (status_json 500 (JError "Failed to update device"), with_faults d f) /\
  delete_device_handler req now d =
    (status_json 500 (JError "Failed to delete device"), with_faults d f) /\
  get_services req now d =
    (status_json 500 (JError "Failed to fetch services"), with_faults d f) /\
  post_services req now d =
    (status_json 500 (JError "Failed to add service"), with_faults d f) /\
  put_service req now d =
    (status_json 500 (JError "Failed to update service"), with_faults d f) /\
  delete_service_handler req now d =
    (status_json 500 (JError "Failed to delete service"), with_faults d f).
Proof.
  intros Hf. split.
  - unfold register.
    destruct (field "email" (body req)) as [[|c e]|]; try discriminate.
    destruct (field "password" (body req)) as [[|c' p]|];
      try (intros _ H; discriminate H).
    intros _ _. unfold try_catch, bind. now rewrite (query_fault _ _ f Hf).
  - unfold login, get_devices, post_devices, put_device,
      delete_device_handler, get_services, post_services, put_service,
      delete_service_handler, try_catch, bind. cbv zeta.
    rewrite !(query_fault _ _ f Hf). repeat split.
Qed.

(** *** Update and Delete *)

Lemma in_page {A} (n m : nat) (l : list A) (x : A) :
  In x (firstn n (skipn m l)) -> In x l.
Proof.
  intros H. rewrite <- (firstn_skipn m l). apply in_or_app. right.
  rewrite <- (firstn_skipn n (skipn m l)). apply in_or_app. now left.
Qed.

(** What a List handler can return: a page of the table and its size. *)
Lemma get_devices_listed (req : request) (now : Z) (d d' : db)
  (res : response) (l : list Device.row) (total : Z) (page limit : number) :
  get_devices req now d = (res, d') ->
  json_body res = JDevices l total page limit ->
  status res = 200 /\
  total = Z.of_nat (List.length (rows (devices d))) /\
  forall r, In r l -> In r (rows (devices d)).
Proof.
  unfold get_devices, try_catch, bind, query, select_limit_offset,
    select_count. cbv zeta.
  destruct (faults d) as [|[] [|[] f]];
    destruct (sql_count (limit_of (query_limit req)));
    destruct (sql_count
                (number_mul (number_sub (page_of (query_page req)) (Finite 1))
                   (limit_of (query_limit req)))); cbn;
    intros [= <- <-]; cbn; intros [= <- <- <- <-] || discriminate;
    (split; [reflexivity|split; [reflexivity|]]);
    intros r; apply in_page.
Qed.

Lemma get_services_listed (req : request) (now : Z) (d d' : db)
  (res : response) (l : list Service.row) (total : Z) (page limit : number) :
  get_services req now d = (res, d') ->
  json_body res = JServices l total page limit ->
  status res = 200 /\
  total = Z.of_nat (List.length (rows (services d))) /\
  forall r, In r l -> In r (rows (services d)).
Proof.
  unfold get_services, try_catch, bind, query, select_limit_offset,
    select_count. cbv zeta.
  destruct (faults d) as [|[] [|[] f]];
    destruct (sql_count (limit_of (query_limit req)));
    destruct (sql_count
                (number_mul (number_sub (page_of (query_page req)) (Finite 1))
                   (limit_of (query_limit req)))); cbn;
    intros [= <- <-]; cbn; intros [= <- <- <- <-] || discriminate;
    (split; [reflexivity|split; [reflexivity|]]);
    intros r; apply in_page.
Qed.



Lemma delete_device_answered (req : request) (now : Z) (d : db) :
  answers 1 d = true ->
  delete_device_handler req now d =
    (status_json 200 (JMessage "Device deleted"),
     with_devices (with_faults d (tl (faults d)))
       {| rows := filter (fun r => negb (id_eq (params_id req) (Device.id r)))
                         (rows (devices d));
          auto_increment := auto_increment (devices d) |}).
Proof.
  intros Hup. unfold delete_device_handler, try_catch, bind. cbv zeta.
  now rewrite (query_answered _ _ Hup).
Qed.

Lemma delete_service_answered (req : request) (now : Z) (d : db) :
  answers 1 d = true ->
  delete_service_handler req now d =
    (status_json 200 (JMessage "Service deleted"),
     with_services (with_faults d (tl (faults d)))
       {| rows := filter (fun r => negb (id_eq (params_id req) (Service.id r)))
                         (rows (services d));
          auto_increment := auto_increment (services d) |}).
Proof.
  intros Hup. unfold delete_service_handler, try_catch, bind. cbv zeta.
  now rewrite (query_answered _ _ Hup).
Qed.


Lemma filter_idempotent {A} (p : A -> bool) (l : list A) :
  filter p (filter p l) = filter p l.
Proof.
  induction l as [|x l IH]; cbn; [reflexivity|].
  destruct (p x) eqn:E; cbn; [|exact IH]. now rewrite E, IH.
Qed.




(** X6: Delete removes the rows the id matches and nothing else.  After a
    DELETE answered 200 the table holds, in their old order, exactly the old
    rows the id does not match; the other tables are untouched; no later List
    response contains a row the id matches; and repeating the DELETE changes
    nothing.  (The store answers the queries of the DELETE requests.) *)
Theorem X6_delete_removes_matching_rows (req : request) (now : Z) (d : db) :
  answers 1 d = true ->
  (exists d',
     delete_device_handler req now d =
       (status_json 200 (JMessage "Device deleted"), d') /\
     users d' = users d /\ services d' = services d /\
     rows (devices d') =
       filter (fun r => negb (id_eq (params_id req) (Device.id r)))
              (rows (devices d)) /\
     (forall r, In r (rows (devices d')) <->
                In r (rows (devices d)) /\
                id_eq (params_id req) (Device.id r) = false) /\
     (forall req' now' res d'' l total page limit,
        get_devices req' now' d' = (res, d'') ->
        json_body res = JDevices l total page limit ->
        forall r, In r l -> id_eq (params_id req) (Device.id r) = false) /\
     (forall now',
        answers 2 d = true ->
        exists d'',
          delete_device_handler req now' d' =
            (status_json 200 (JMessage "Device deleted"), d'') /\
          same_tables d' d'')) /\
  (exists d',
     delete_service_handler req now d =
       (status_json 200 (JMessage "Service deleted"), d') /\
     users d' = users d /\ devices d' = devices d /\
     rows (services d') =
       filter (fun r => negb (id_eq (params_id req) (Service.id r)))
              (rows (services d)) /\
     (forall r, In r (rows (services d')) <->
                In r (rows (services d)) /\
                id_eq (params_id req) (Service.id r) = false) /\
     (forall req' now' res d'' l total page limit,
        get_services req' now' d' = (res, d'') ->
        json_body res = JServices l total page limit ->
        forall r, In r l -> id_eq (params_id req) (Service.id r) = false) /\
     (forall now',
        answers 2 d = true ->
        exists d'',
          delete_service_handler req now' d' =
            (status_json 200 (JMessage "Service deleted"), d'') /\
          same_tables d' d'')).
Proof.
  intros Hup. split.
  - eexists. split; [exact (delete_device_answered req now d Hup)|].
    cbn [users services devices with_devices with_faults rows].
    assert (Hiff : forall r,
      In r (filter (fun r => negb (id_eq (params_id req) (Device.id r)))
              (rows (devices d))) <->
      In r (rows (devices d)) /\ id_eq (params_id req) (Device.id r) = false).
    { intros r. rewrite filter_In, negb_true_iff. reflexivity. }
    repeat (split; [reflexivity|]). split; [exact Hiff|]. split.
    + intros req' now' res d'' l total page limit Hget Hbody r Hr.
      destruct (get_devices_listed _ _ _ _ _ _ _ _ _ Hget Hbody)
        as (_ & _ & Hsub).
      apply Hsub in Hr. cbn in Hr. now apply Hiff in Hr.
    + intros now' Hup2. destruct (answers_next _ _ Hup2) as [_ Hup'].
      match goal with
      | |- exists _, delete_device_handler _ _ ?t = _ /\ _ =>
          assert (Hup1 : answers 1 t = true) by exact Hup';
          eexists; split; [exact (delete_device_answered req now' t Hup1)|]
      end.
      repeat split. cbn. f_equal. apply filter_idempotent.
  - eexists. split; [exact (delete_service_answered req now d Hup)|].
    cbn [users services devices with_services with_faults rows].
    assert (Hiff : forall r,
      In r (filter (fun r => negb (id_eq (params_id req) (Service.id r)))
              (rows (services d))) <->
      In r (rows (services d)) /\ id_eq (params_id req) (Service.id r) = false).
    { intros r. rewrite filter_In, negb_true_iff. reflexivity. }
    repeat (split; [reflexivity|]). split; [exact Hiff|]. split.
    + intros req' now' res d'' l total page limit Hget Hbody r Hr.
      destruct (get_services_listed _ _ _ _ _ _ _ _ _ Hget Hbody)
        as (_ & _ & Hsub).
      apply Hsub in Hr. cbn in Hr. now apply Hiff in Hr.
    + intros now' Hup2. destruct (answers_next _ _ Hup2) as [_ Hup'].
      match goal with
      | |- exists _, delete_service_handler _ _ ?t = _ /\ _ =>
          assert (Hup1 : answers 1 t = true) by exact Hup';
          eexists; split; [exact (delete_service_answered req now' t Hup1)|]
      end.
      repeat split. cbn. f_equal. apply filter_idempotent.
Qed.

(** X7: on every path a List handler either answers 500 with its generic
    message or answers 200 with rows that all belong to the table, at most
    [limit] of them, the size of the whole table as [total], and [page] and
    [limit] as it parsed them. *)
Theorem X7_list_outcomes (req : request) (now : Z) (d : db) :
  (fst (get_devices req now d) =
     status_json 500 (JError "Failed to fetch devices") \/
   exists l,
     fst (get_devices req now d) =
       status_json 200
         (JDevices l (Z.of_nat (List.length (rows (devices d))))
            (page_of (query_page req)) (limit_of (query_limit req))) /\
     (forall r, In r l -> In r (rows (devices d))) /\
     exists z, limit_of (query_limit req) = Finite z /\
               Z.of_nat (List.length l) <= z) /\
  (fst (get_services req now d) =
     status_json 500 (JError "Failed to fetch services") \/
   exists l,
     fst (get_services req now d) =
       status_json 200
         (JServices l (Z.of_nat (List.length (rows (services d))))
            (page_of (query_page req)) (limit_of (query_limit req))) /\
     (forall r, In r l -> In r (rows (services d))) /\
     exists z, limit_of (query_limit req) = Finite z /\
               Z.of_nat (List.length l) <= z).
Proof.
  assert (Hlen : forall A (l : list A) (limit : number) (n m : nat),
            sql_count limit = Some n ->
            exists z, limit = Finite z /\
                      Z.of_nat (List.length (firstn n (skipn m l))) <= z).
  { intros A l limit n m Hl. destruct limit as [| |z]; try discriminate Hl.
    cbn in Hl.
    destruct ((0 <=? z) && (z <=? 18446744073709551615)) eqn:E;
      [|discriminate Hl].
    injection Hl as <-. exists z. split; [reflexivity|].
    pose proof (firstn_le_length (Z.to_nat z) (skipn m l)). lia. }
  split.
  - unfold get_devices, try_catch, bind, query, select_limit_offset,
      select_count. cbv zeta.
    destruct (faults d) as [|[] [|[] f]];
      destruct (sql_count (limit_of (query_limit req))) eqn:El;
      destruct (sql_count
                  (number_mul
                     (number_sub (page_of (query_page req)) (Finite 1))
                     (limit_of (query_limit req)))); cbn; try (now left);
      right; eexists; (split; [reflexivity|]);
      (split; [intros r; apply in_page|now apply Hlen]).
  - unfold get_services, try_catch, bind, query, select_limit_offset,
      select_count. cbv zeta.
    destruct (faults d) as [|[] [|[] f]];
      destruct (sql_count (limit_of (query_limit req))) eqn:El;
      destruct (sql_count
                  (number_mul
                     (number_sub (page_of (query_page req)) (Finite 1))
                     (limit_of (query_limit req)))); cbn; try (now left);
      right; eexists; (split; [reflexivity|]);
      (split; [intros r; apply in_page|now apply Hlen]).
Qed.


(** *** Paging *)

Lemma page_holds_row {A} (l : list A) (i L : nat) :
  (0 < L)%nat ->
  nth_error (firstn L (skipn (i / L * L) l)) (i mod L) = nth_error l i.
Proof.
  intros HL. rewrite nth_error_firstn.
  pose proof (Nat.mod_upper_bound i L ltac:(lia)) as Hm.
  apply Nat.ltb_lt in Hm. rewrite Hm, nth_error_skipn. f_equal.
  pose proof (Nat.div_mod_eq i L). lia.
Qed.

(** X9: every row can be reached by paging.  With a positive [limit] [L],
    the row at position [i] of the table (counting from 0) is returned by the
    List request for page [i / L + 1], at position [i mod L] of the page, as
    long as [i + L] is at most 2^53 - 1 so that the offset is computed
    exactly.  (The store answers the two queries.) *)
Theorem X9_every_row_is_on_its_page (req : request) (now : Z) (d : db)
  (i L : nat) :
  (0 < L)%nat ->
  Z.of_nat i + Z.of_nat L <= 9007199254740991 ->
  page_of (query_page req) = Finite (Z.of_nat (i / L) + 1) ->
  limit_of (query_limit req) = Finite (Z.of_nat L) ->
  answers 2 d = true ->
  (forall x, nth_error (rows (devices d)) i = Some x ->
   exists l total d',
     get_devices req now d =
       (status_json 200 (JDevices l total (Finite (Z.of_nat (i / L) + 1))
                           (Finite (Z.of_nat L))), d') /\
     nth_error l (i mod L) = Some x) /\
  (forall x, nth_error (rows (services d)) i = Some x ->
   exists l total d',
     get_services req now d =
       (status_json 200 (JServices l total (Finite (Z.of_nat (i / L) + 1))
                           (Finite (Z.of_nat L))), d') /\
     nth_error l (i mod L) = Some x).
Proof.
  intros HL Hb Hp Hl Hup.
  pose proof (Nat.div_mod_eq i L) as Hdm.
  assert (Hpos : 0 < Z.of_nat (i / L) + 1) by lia.
  assert (Hlim : 0 < Z.of_nat L) by lia.
  assert (Hsafe : (Z.of_nat (i / L) + 1) * Z.of_nat L <= 9007199254740991)
    by nia.
  assert (Hoff : Z.to_nat ((Z.of_nat (i / L) + 1 - 1) * Z.of_nat L)
                 = (i / L * L)%nat) by lia.
  split; intros x Hx.
  - destruct (get_devices_page req now d _ _ Hp Hl Hpos Hlim Hsafe Hup)
      as (d' & Hget & _).
    rewrite Hoff, Nat2Z.id in Hget.
    eexists. eexists. exists d'. split; [exact Hget|].
    now rewrite page_holds_row.
  - destruct (get_services_page req now d _ _ Hp Hl Hpos Hlim Hsafe Hup)
      as (d' & Hget & _).
    rewrite Hoff, Nat2Z.id in Hget.
    eexists. eexists. exists d'. split; [exact Hget|].
    now rewrite page_holds_row.
Qed.

(** X10: a page past the end of the table is not an error.  With positive
    [page] [p] and [limit] [l], [p * l] at most 2^53 - 1, such that
    [(p - 1) * l] is at least the number of rows, List answers 200 with no
    rows and the size of the whole table as [total].  (The store answers the
    two queries.) *)
Theorem X10_page_past_the_end_is_empty (req : request) (now : Z) (d : db)
  (p l : Z) :
  page_of (query_page req) = Finite p ->
  limit_of (query_limit req) = Finite l ->
  0 < p -> 0 < l -> p * l <= 9007199254740991 ->
  answers 2 d = true ->
  (Z.of_nat (List.length (rows (devices d))) <= (p - 1) * l ->
   exists d',
     get_devices req now d =
       (status_json 200
          (JDevices [] (Z.of_nat (List.length (rows (devices d))))
             (Finite p) (Finite l)), d')) /\
  (Z.of_nat (List.length (rows (services d))) <= (p - 1) * l ->
   exists d',
     get_services req now d =
       (status_json 200
          (JServices [] (Z.of_nat (List.length (rows (services d))))
             (Finite p) (Finite l)), d')).
Proof.
  intros Ep El Hp Hl Hb Hup. split; intros Hend.
  - destruct (get_devices_page req now d p l Ep El Hp Hl Hb Hup)
      as (d' & Hget & _).
    exists d'. rewrite Hget. rewrite skipn_all2 by lia.
    now rewrite firstn_nil.
  - destruct (get_services_page req now d p l Ep El Hp Hl Hb Hup)
      as (d' & Hget & _).
    exists d'. rewrite Hget. rewrite skipn_all2 by lia.
    now rewrite firstn_nil.
Qed.

(** *** Create, then List *)





(** *** The Authorization header *)

Lemma append_empty (s : string) : s ++ "" = s.
Proof. induction s as [|c s IH]; cbn; [reflexivity|now rewrite IH]. Qed.

Lemma split_at_separator (sep : ascii) (w s : string) :
  (forall c, In c (list_ascii_of_string w) -> c <> sep) ->
  split sep (w ++ String sep s) = w :: split sep s.
Proof.
  induction w as [|c w IH]; intros H; cbn.
  - now rewrite Ascii.eqb_refl.
  - destruct (Ascii.eqb_spec c sep) as [->|_].
    + exfalso. apply (H sep); [now left|reflexivity].
    + rewrite IH; [reflexivity|]. intros x Hx. apply H. now right.
Qed.

Lemma split_first_piece (sep : ascii) (t rest : string) :
  (forall c, In c (list_ascii_of_string t) -> c <> sep) ->
  rest = "" \/ (exists r, rest = String sep r) ->
  exists pieces, split sep (t ++ rest) = t :: pieces.
Proof.
  intros Ht [->|(r & ->)].
  - exists []. rewrite append_empty. now apply split_without_separator.
  - exists (split sep r). now apply split_at_separator.
Qed.

(** X12: the gate looks at the second space-separated piece of the header
    and at nothing else.  For a header [w ++ " " ++ t ++ rest], where [w]
    and [t] hold no space and [rest] is empty or begins with a space, the
    outcome is 401 when [t] is empty and otherwise the outcome of verifying
    [t]: the scheme word [w] is not compared with "Bearer" (it may even be
    empty), and whatever follows a second space is ignored. *)
Theorem X12_gate_reads_second_piece (req : request) (now : Z)
  (w t rest : string) :
  (forall c, In c (list_ascii_of_string w) -> c <> " "%char) ->
  (forall c, In c (list_ascii_of_string t) -> c <> " "%char) ->
  rest = "" \/ (exists r, rest = String " " r) ->
  authorization req = Some (w ++ String " " (t ++ rest)) ->
  authenticateToken req now =
    match t with
    | "" => Respond (status_json 401 (JError "Token required"))
    | _ =>
        match jwt_verify t JWT_SECRET now with
        | None => Respond (status_json 403 (JError "Invalid token"))
        | Some user => Next (set_user req user)
        end
    end.
Proof.
  intros Hw Ht Hrest Hh.
  assert (Htok : bearer_token (authorization req) = Some t).
  { rewrite Hh. unfold bearer_token.
    destruct (w ++ String " " (t ++ rest)) as [|c h] eqn:E.
    - destruct w; discriminate E.
    - rewrite <- E, (split_at_separator _ _ _ Hw).
      destruct (split_first_piece " " t rest Ht Hrest) as (pieces & ->).
      reflexivity. }
  unfold authenticateToken. cbv zeta. rewrite Htok.
  destruct t; reflexivity.
Qed.

Lemma split_not_empty (sep : ascii) (s : string) : split sep s <> [].
Proof.
  destruct s as [|c r]; cbn; [discriminate|].
  destruct (c =? sep)%char; [discriminate|].
  destruct (split sep r); discriminate.
Qed.

(** X13: [split] cuts a string at every separator and loses nothing: joining
    the pieces with the separator gives the string back, and no piece holds
    the separator. *)
Theorem X13_split_join (sep : ascii) (s : string) :
  String.concat (String sep "") (split sep s) = s /\
  Forall (fun piece =>
            forall c, In c (list_ascii_of_string piece) -> c <> sep)
         (split sep s).
Proof.
  induction s as [|c r [IHj IHf]]; cbn [split].
  - split; [reflexivity|]. constructor; [intros c []|constructor].
  - pose proof (split_not_empty sep r) as Hne'.
    destruct (split sep r) as [|piece pieces] eqn:E; [contradiction|].
    destruct (Ascii.eqb_spec c sep) as [->|Hne].
    + split.
      * change (String sep (String.concat (String sep "") (piece :: pieces))
                = String sep r).
        now rewrite IHj.
      * constructor; [intros c []|exact IHf].
    + split.
      * destruct pieces as [|p2 ps].
        { cbn in IHj |- *. now subst r. }
        change (String c (String.concat (String sep "") (piece :: p2 :: ps))
                = String c r).
        now rewrite IHj.
      * inversion IHf as [|? ? Hp Hps]; subst.
        constructor; [|exact Hps].
        intros x [<-|Hx]; [congruence|now apply Hp].
Qed.

(** *** What [page] and [limit] accept *)

Lemma trim_start_white (ws x : string) :
  (forall c, In c (list_ascii_of_string ws) -> is_white_space c = true) ->
  trim_start (ws ++ x) = trim_start x.
Proof.
  induction ws as [|c ws IH]; intros H; cbn [append]; [reflexivity|].
  cbn [trim_start]. rewrite (H c (or_introl eq_refl)). apply IH.
  intros y Hy. apply H. now right.
Qed.

Lemma digits_prefix_numeral (s t : string) (ds : list Z) :
  decimal_digits s = Some ds ->
  match t with
  | String c _ => is_decimal_digit c
  | EmptyString => false
  end = false ->
  digits_prefix 10 (s ++ t) = ds.
Proof.
  intros Hs Ht. revert ds Hs.
  induction s as [|c r IH]; intros ds; cbn [decimal_digits append].
  - intros [= <-]. now apply digits_prefix_non_decimal.
  - destruct (is_decimal_digit c) eqn:Hc; [|discriminate].
    cbn [digits_prefix]. rewrite (decimal_digit_value c Hc).
    pose proof (decimal_digit_code c Hc) as Hr.
    destruct (decimal_digits r) as [ds'|]; [|discriminate].
    cbn [option_map]. intros [= <-].
    replace (code c - 48 <? 10) with true by lia.
    now rewrite (IH ds').
Qed.

(** The steps of [parseInt] after the sign, on a decimal numeral of a
    positive integer followed by something that is not a digit. *)
Lemma numeral_is_read (s t : string) (n sign : Z) :
  decimal_value s = Some n -> 0 < n ->
  match t with
  | String c _ => is_decimal_digit c
  | EmptyString => false
  end = false ->
  let u := s ++ t in
  let strip_prefix :=
    match u with
    | String c (String x _) => ((c =? "0") && ((x =? "x") || (x =? "X")))%char
    | _ => false
    end in
  let R := if strip_prefix then 16 else 10 in
  let s' :=
    match u with
    | String _ (String _ r) => if strip_prefix then r else u
    | _ => u
    end in
  match digits_prefix R s' with
  | [] => NaN
  | ds => to_number (sign * math_int R ds)
  end = to_number (sign * n).
Proof.
  intros Hs Hn Ht. cbv zeta.
  destruct s as [|c r]; [discriminate|].
  unfold decimal_value in Hs.
  destruct (decimal_digits (String c r)) as [ds|] eqn:Hds; [|discriminate].
  cbn [option_map] in Hs. injection Hs as <-.
  pose proof (digits_prefix_numeral _ t _ Hds Ht) as Hpre.
  cbn [decimal_digits] in Hds.
  destruct (is_decimal_digit c) eqn:Hc; [|discriminate].
  assert (Hstrip :
    match String c r ++ t with
    | String c0 (String x _) =>
        ((c0 =? "0") && ((x =? "x") || (x =? "X")))%char
    | _ => false
    end = false).
  { cbn [append]. destruct r as [|x r'].
    - cbn [decimal_digits option_map] in Hds. injection Hds as <-.
      cbn in Hn. cbn [append]. destruct t as [|y t']; [reflexivity|].
      rewrite code_neq; [reflexivity|]. cbn. lia.
    - cbn [append]. cbn [decimal_digits] in Hds.
      destruct (is_decimal_digit x) eqn:Hx.
      + rewrite (decimal_digit_not_x x Hx). apply andb_false_r.
      + destruct (decimal_digits r'); discriminate. }
  rewrite Hstrip.
  assert (Hsame :
    match String c r ++ t with
    | String _ (String _ _) => String c r ++ t
    | _ => String c r ++ t
    end = String c r ++ t)
    by (cbn [append]; destruct (r ++ t); reflexivity).
  rewrite Hsame, Hpre.
  destruct ds as [|d0 ds']; [|reflexivity].
  destruct (decimal_digits r); discriminate.
Qed.

Lemma parseInt_reads_number (ws s t : string) (n : Z) :
  (forall c, In c (list_ascii_of_string ws) -> is_white_space c = true) ->
  decimal_value s = Some n -> 0 < n ->
  match t with
  | String c _ => is_decimal_digit c
  | EmptyString => false
  end = false ->
  parseInt (ws ++ s ++ t) = to_number n /\
  parseInt (ws ++ String "+" (s ++ t)) = to_number n /\
  parseInt (ws ++ String "-" (s ++ t)) = to_number (- n).
Proof.
  intros Hws Hs Hn Ht.
  pose proof (numeral_is_read s t n 1 Hs Hn Ht) as Hplus.
  pose proof (numeral_is_read s t n (-1) Hs Hn Ht) as Hminus.
  cbv zeta in Hplus, Hminus.
  replace (1 * n) with n in Hplus by lia.
  replace (-1 * n) with (- n) in Hminus by lia.
  unfold parseInt. rewrite !(trim_start_white ws _ Hws).
  split; [|split].
  - destruct s as [|c r]; [discriminate|].
    assert (Hc : is_decimal_digit c = true).
    { unfold decimal_value in Hs. cbn [decimal_digits] in Hs.
      destruct (is_decimal_digit c); [reflexivity|discriminate]. }
    cbn [append trim_start].
    rewrite (decimal_digit_not_space c Hc), (decimal_digit_not_sign c Hc).
    pose proof (decimal_digit_not_sign c Hc) as Hsg.
    apply orb_false_iff in Hsg. rewrite (proj2 Hsg). exact Hplus.
  - cbn [trim_start]. exact Hplus.
  - cbn [trim_start]. exact Hminus.
Qed.

(** X14: [page] and [limit] read the number a value begins with.  Leading
    white space and a plus sign are skipped, and reading stops at the first
    character that is not a digit: for a decimal numeral [s] of a positive
    integer [n] up to 2^53 - 1, the values [ws ++ s ++ t] and
    [ws ++ "+" ++ s ++ t] give [n] whenever [ws] is white space and [t] does
    not begin with a digit; and a parameter repeated in the query string,
    which arrives as an array, gives the number of its first occurrence. *)
Theorem X14_page_reads_leading_number (ws s t : string) (n : Z) :
  (forall c, In c (list_ascii_of_string ws) -> is_white_space c = true) ->
  decimal_value s = Some n -> 0 < n <= 9007199254740991 ->
  match t with
  | String c _ => is_decimal_digit c
  | EmptyString => false
  end = false ->
  (page_of (QString (ws ++ s ++ t)) = Finite n /\
   limit_of (QString (ws ++ s ++ t)) = Finite n) /\
  (page_of (QString (ws ++ String "+" (s ++ t))) = Finite n /\
   limit_of (QString (ws ++ String "+" (s ++ t))) = Finite n) /\
  (forall rest,
     page_of (QArray (s :: rest)) = Finite n /\
     limit_of (QArray (s :: rest)) = Finite n).
Proof.
  intros Hws Hs Hn Ht.
  assert (Hpos : 0 < n) by lia.
  assert (Hnum : to_number n = Finite n) by (apply to_number_safe; lia).
  assert (Hor : forall d, or_default (Finite n) d = Finite n).
  { intros d. cbn. destruct (n =? 0) eqn:E; [lia|reflexivity]. }
  destruct (parseInt_reads_number ws s t n Hws Hs Hpos Ht) as (H0 & H1 & _).
  unfold page_of, limit_of. cbn [to_string].
  rewrite H0, H1, Hnum, !Hor. repeat split.
  - destruct rest as [|s2 rest].
    + cbn [String.concat].
      destruct (parseInt_reads_number "" s "" n) as (H & _);
        try assumption; try reflexivity; [intros c []|].
      cbn [append] in H. rewrite append_empty in H.
      now rewrite H, Hnum.
    + change (String.concat "," (s :: s2 :: rest))
        with (s ++ String "," (String.concat "," (s2 :: rest))).
      destruct (parseInt_reads_number "" s
                  (String "," (String.concat "," (s2 :: rest))) n)
        as (H & _); try assumption; try reflexivity; [intros c []|].
      cbn [append] in H. now rewrite H, Hnum.
  - destruct rest as [|s2 rest].
    + cbn [String.concat].
      destruct (parseInt_reads_number "" s "" n) as (H & _);
        try assumption; try reflexivity; [intros c []|].
      cbn [append] in H. rewrite append_empty in H.
      now rewrite H, Hnum.
    + change (String.concat "," (s :: s2 :: rest))
        with (s ++ String "," (String.concat "," (s2 :: rest))).
      destruct (parseInt_reads_number "" s
                  (String "," (String.concat "," (s2 :: rest))) n)
        as (H & _); try assumption; try reflexivity; [intros c []|].
      cbn [append] in H. now rewrite H, Hnum.
Qed.

(** X15: a minus sign is honoured.  For a decimal numeral [s] of a positive
    integer [n] up to 2^53 - 1, the value ["-" ++ s] (after optional white
    space, before anything that is not a digit) gives [page = - n] and
    [limit = - n]: no check brings a negative number back to the default. *)
Theorem X15_negative_numbers_are_kept (ws s t : string) (n : Z) :
  (forall c, In c (list_ascii_of_string ws) -> is_white_space c = true) ->
  decimal_value s = Some n -> 0 < n <= 9007199254740991 ->
  match t with
  | String c _ => is_decimal_digit c
  | EmptyString => false
  end = false ->
  page_of (QString (ws ++ String "-" (s ++ t))) = Finite (- n) /\
  limit_of (QString (ws ++ String "-" (s ++ t))) = Finite (- n).
Proof.
  intros Hws Hs Hn Ht.
  assert (Hpos : 0 < n) by lia.
  destruct (parseInt_reads_number ws s t n Hws Hs Hpos Ht) as (_ & _ & H).
  unfold page_of, limit_of. cbn [to_string].
  rewrite H, to_number_safe by lia. cbn.
  destruct (- n =? 0) eqn:E; [lia|]. now split.
Qed.

(** *** Sequences of credential requests *)


Lemma users_with_email_grows (e : option string) (d d' : db) (u : user)
  (rest appended : list user) :
  users_with_email e d = u :: rest ->
  rows (users d') = (rows (users d) ++ appended)%list ->
  exists rest', users_with_email e d' = u :: rest'.
Proof.
  unfold users_with_email. destruct e as [e|]; [|discriminate].
  intros Hfound ->. rewrite filter_app, Hfound. cbn. eauto.
Qed.

(** X17: registering never changes how an already registered email logs in.
    If the store finds a user for the email of a Login request, then after
    any Register request, whatever its outcome, that Login gets the answer it
    would have got before.  (The store answers the Login query in both
    states.) *)
Theorem X17_register_keeps_logins (rreq lreq : request) (now now' : Z)
  (d : db) :
  users_with_email (field "email" (body lreq)) d <> [] ->
  answers 1 d = true ->
  answers 1 (snd (register rreq now d)) = true ->
  fst (login lreq now' (snd (register rreq now d)))
  = fst (login lreq now' d).
Proof.
  intros Hfound Hup Hup'.
  destruct (users_with_email (field "email" (body lreq)) d) as [|u rest]
    eqn:Hu; [contradiction|].
  assert (Hgrow : exists appended,
            rows (users (snd (register rreq now d)))
            = (rows (users d) ++ appended)%list).
  { destruct (register_users rreq now d)
      as [[_ ->]|(_ & e & p & _ & _ & _ & _ & _ & ->)].
    - exists []. now rewrite app_nil_r.
    - eexists. reflexivity. }
  destruct Hgrow as (appended & Hrows).
  destruct (users_with_email_grows _ d _ u rest appended Hu Hrows)
    as (rest' & Hu').
  destruct (login_found lreq now' d u rest Hup Hu) as (d1 & _ & ->).
  destruct (login_found lreq now' _ u rest' Hup' Hu') as (d2 & _ & ->).
  reflexivity.
Qed.

(** X18: the token Login returns opens the gate.  When Login answers 200
    with a token for the user it found, and that token is sent at once as
    ["Bearer " ++ token], [authenticateToken] calls [next()] with the id and
    role of that user attached to the request.  (Assumed: jsonwebtoken signs
    and verifies as in [jwt_contract], and the token is non-empty and holds
    no space; the store answers the Login query.) *)
Theorem X18_login_token_opens_gate (req req2 : request) (now : Z)
  (d d' : db) (u : user) (rest : list user) (token role : string) :
  answers 1 d = true ->
  users_with_email (field "email" (body req)) d = u :: rest ->
  login req now d = (status_json 200 (JToken token role), d') ->
  jwt_contract jwt_sign jwt_verify JWT_SECRET ->
  token <> "" ->
  (forall c, In c (list_ascii_of_string token) -> c <> " "%char) ->
  authorization req2 = Some ("Bearer " ++ token) ->
  role = user_role u /\
  authenticateToken req2 now =
    Next (set_user req2 {| claims_id := user_id u;
                           claims_role := user_role u;
                           iat := now; exp := now + 3600 |}).
Proof.
  intros Hup Hu Hlogin Hjwt Hne Hsp Hh.
  destruct (login_found req now d u rest Hup Hu) as (d1 & _ & Hl).
  rewrite Hl in Hlogin.
  destruct (strict_neq (field "password" (body req)) (user_password u));
    [discriminate Hlogin|].
  destruct (jwt_sign {| payload_id := user_id u; payload_role := user_role u |}
                     JWT_SECRET "1h" now) as [tok|] eqn:Hsign;
    [|discriminate Hlogin].
  injection Hlogin as Htoken Hrole _. subst tok.
  destruct (Hjwt {| payload_id := user_id u; payload_role := user_role u |}
              now) as (tok' & Hsign' & Hverify).
  rewrite Hsign in Hsign'. injection Hsign' as <-.
  split; [now symmetry|].
  assert (Htok : bearer_token (authorization req2) = Some token).
  { rewrite Hh. cbn [append bearer_token].
    change (String "B" (String "e" (String "a" (String "r" (String "e"
              (String "r" (String " " token)))))))
      with ("Bearer" ++ String " " token).
    rewrite split_at_separator.
    - now rewrite (split_without_separator _ _ Hsp).
    - intros c Hc. cbn in Hc.
      repeat (destruct Hc as [<-|Hc]; [discriminate|]). contradiction. }
  assert (Ht : truthy (Some token) = true)
    by (destruct token; [contradiction|reflexivity]).
  exact (authenticateToken_next req2 now token _ Htok Ht Hverify).
Qed.

(** *** The route table *)

Lemma method_eqb_eq (a b : method) : method_eqb a b = true <-> a = b.
Proof. destruct a, b; cbn; split; congruence. Qed.

(** X19: the route table is unambiguous.  Looking up a verb and a path
    pattern finds a registration exactly when one exists for that pair, and
    finds that one: no registration is hidden behind an earlier one.  A
    request for any other pair is not answered by the API routes. *)
Theorem X19_route_lookup (m : method) (p : string) :
  (forall r, route_for m p = Some r <->
             In r routes /\ verb r = m /\ path r = p) /\
  (forall req now d,
     serve m p req now d = None <->
     forall r, In r routes -> ~ (verb r = m /\ path r = p)).
Proof.
  assert (Hfind : forall r, route_for m p = Some r <->
                            In r routes /\ verb r = m /\ path r = p).
  { intros r. split.
    - intros H. unfold route_for in H. apply find_some in H.
      destruct H as [Hin Ht]. apply andb_prop in Ht. destruct Ht as [Hm Hp].
      apply method_eqb_eq in Hm. apply String.eqb_eq in Hp. auto.
    - intros (Hin & <- & <-). cbn in Hin.
      destruct Hin as [<-|[<-|[<-|[<-|[<-|[<-|[<-|[<-|[<-|[<-|[]]]]]]]]]]];
        reflexivity. }
  split; [exact Hfind|].
  intros req now d. unfold serve.
  destruct (route_for m p) as [r|] eqn:E; cbn.
  - split; [discriminate|]. intros H. exfalso.
    destruct (proj1 (Hfind r) eq_refl) as (Hin & Hm & Hp).
    now apply (H r Hin).
  - split; [|reflexivity]. intros _ r Hin [Hm Hp].
    assert (Hr : None = Some r) by (apply Hfind; auto).
    discriminate Hr.
Qed.

End Server.

(** ** The properties on the sample deployment *)

Lemma count_ones_ones (n : nat) (rest : string) :
  Unsigned.count_ones (Unsigned.ones n ++ String "." rest)
  = (n, String "." rest).
Proof.
  induction n as [|n IH]; cbn; [reflexivity|]. now rewrite IH.
Qed.

Lemma read_write_Z (z : Z) (rest : string) :
  Unsigned.read_Z (Unsigned.write_Z z rest) = Some (z, rest).
Proof.
  unfold Unsigned.read_Z, Unsigned.write_Z.
  rewrite count_ones_ones. cbn.
  destruct (z <? 0) eqn:E; cbn; f_equal; f_equal; lia.
Qed.

Lemma unsigned_contract (secret : option string) :
  jwt_contract Unsigned.sign Unsigned.verify secret.
Proof.
  intros p t. eexists. split; [reflexivity|].
  unfold Unsigned.verify. rewrite !read_write_Z.
  replace (t <? t + 3600) with true by lia. reflexivity.
Qed.

(** C1: the claim as stated fails on ["-5"], which is not a positive
    integer and is parsed to [-5] for [page] and for [limit]. *)
Lemma C1_negative_value_not_defaulted :
  denotes_positive_integer (QString "-5") = false /\
  page_of (QString "-5") = Finite (-5) /\
  page_of (QString "-5") <> Finite 1 /\
  limit_of (QString "-5") = Finite (-5) /\
  limit_of (QString "-5") <> Finite 10.
Proof. repeat split; discriminate. Qed.

Lemma C1_witness :
  (page_of QUndefined = Finite 1 /\ limit_of QUndefined = Finite 10) /\
  (page_of (QString "abc") = Finite 1 /\
   limit_of (QString "abc") = Finite 10) /\
  (page_of (QString "0") = Finite 1 /\ limit_of (QString "0") = Finite 10) /\
  (page_of (QString "42") = Finite 42 /\ limit_of (QString "42") = Finite 42).
Proof.
  split; [|split; [|split]].
  - destruct (C1_page_limit_parse_or_default QUndefined)
      as (_ & H & _). apply H. reflexivity.
  - destruct (C1_page_limit_parse_or_default (QString "abc"))
      as (_ & _ & H & _). apply H. reflexivity.
  - destruct (C1_page_limit_parse_or_default (QString "0"))
      as (_ & _ & _ & H & _). apply H. right. reflexivity.
  - destruct (C1_page_limit_parse_or_default (QString "42"))
      as (_ & _ & _ & _ & _ & H).
    apply (H "42" 42); [reflexivity|reflexivity|lia].
Defined.

Lemma C2_witness :
  let req :=
    Sample.request_of None QUndefined QUndefined "99"
      [("name", "tablet")] None in
  (exists d',
     put_device Sample.id_eq req 0 Sample.store =
       (status_json 200 (JMessage "Device updated"), d') /\
     same_tables Sample.store d') /\
  (exists d',
     delete_service_handler Sample.id_eq req 0 Sample.store =
       (status_json 200 (JMessage "Service deleted"), d') /\
     same_tables Sample.store d').
Proof.
  intro req.
  destruct (C2_update_delete_missing_id Sample.id_eq req 0 Sample.store
              eq_refl) as [Hdev Hser].
  split.
  - apply Hdev. intros r Hr. cbn in Hr.
    repeat (destruct Hr as [<-|Hr]; [reflexivity|]). contradiction.
  - apply Hser. intros r Hr. cbn in Hr.
    repeat (destruct Hr as [<-|Hr]; [reflexivity|]). contradiction.
Defined.

Lemma C3_witness :
  let gate := authenticateToken Sample.secret Unsigned.verify in
  let r := {| verb := GET; path := "/api/devices"; stack := [gate];
              handle := get_devices |} in
  let req h := Sample.request_of h QUndefined QUndefined "" [] None in
  run_route r (req None) 0 Sample.store =
    (status_json 401 (JError "Token required"), Sample.store) /\
  run_route r (req (Some "Bearer junk")) 0 Sample.store =
    (status_json 403 (JError "Invalid token"), Sample.store) /\
  (exists req',
     req_user req' = Some {| claims_id := 1; claims_role := "user";
                             iat := 0; exp := 3600 |} /\
     run_route r (req (Some "Bearer +1.+.user")) 0 Sample.store =
       get_devices req' 0 Sample.store).
Proof.
  intros gate r req.
  assert (Hin : In r (routes Sample.email_eq Sample.id_eq Sample.secret
                        Unsigned.sign Unsigned.verify Sample.extname))
    by (right; right; left; reflexivity).
  split; [|split].
  - destruct (C3_auth_gate Sample.email_eq Sample.id_eq Sample.secret
                Unsigned.sign Unsigned.verify Sample.extname r (req None) 0
                Sample.store Hin)
      as [Hres _].
    destruct (Hres eq_refl) as (H & _). apply H. reflexivity.
  - destruct (C3_auth_gate Sample.email_eq Sample.id_eq Sample.secret
                Unsigned.sign Unsigned.verify Sample.extname r
                (req (Some "Bearer junk")) 0
                Sample.store Hin) as [Hres _].
    destruct (Hres eq_refl) as (_ & H & _).
    apply (H "junk"); reflexivity.
  - destruct (C3_auth_gate Sample.email_eq Sample.id_eq Sample.secret
                Unsigned.sign Unsigned.verify Sample.extname r
                (req (Some "Bearer +1.+.user")) 0 Sample.store Hin)
      as [Hres _].
    destruct (Hres eq_refl) as (_ & _ & H).
    destruct (H "+1.+.user" {| claims_id := 1; claims_role := "user";
                               iat := 0; exp := 3600 |}
                eq_refl eq_refl eq_refl) as (req' & _ & Huser & Hrun).
    exists req'. split; [exact Huser|exact Hrun].
Defined.


Lemma C5_witness :
  let req :=
    Sample.request_of None QUndefined QUndefined ""
      [("email", "b@x.com"); ("password", "q")] None in
  exists d1 d2 token c,
    register Sample.email_eq req 0 Sample.store =
      (status_json 201 (JMessage "User registered"), d1) /\
    login Sample.email_eq Sample.secret Unsigned.sign req 5 d1 =
      (status_json 200 (JToken token "user"), d2) /\
    Unsigned.verify token Sample.secret 5 = Some c /\
    claims_role c = "user".
Proof.
  intro req.
  destruct (C5_register_then_login Sample.email_eq Sample.secret
              Unsigned.sign Unsigned.verify req 0 5 Sample.store
              "b@x.com" "q" eq_refl eq_refl eq_refl eq_refl)
    as (d1 & d2 & u & token & c & Hreg & _ & _ & _ & Hrole & Hlogin & Hver
        & _ & Hc).
  - intros u [<-|[]]. reflexivity.
  - reflexivity.
  - reflexivity.
  - apply unsigned_contract.
  - exists d1, d2, token, c. rewrite Hc, Hrole. auto.
Defined.

Lemma C6_witness :
  let req e p :=
    Sample.request_of None QUndefined QUndefined ""
      [("email", e); ("password", p)] None in
  (exists d',
     login Sample.email_eq Sample.secret Unsigned.sign (req "zed@x.com" "p")
       7 Sample.store =
       (status_json 401 (JError "User not found"), d') /\
     same_tables Sample.store d') /\
  (exists d',
     login Sample.email_eq Sample.secret Unsigned.sign (req "a@x.com" "P")
       7 Sample.store =
       (status_json 401 (JError "Invalid password"), d') /\
     same_tables Sample.store d') /\
  (exists d',
     login Sample.email_eq Sample.secret Unsigned.sign (req "a@x.com" "p")
       7 Sample.store =
       (status_json 200 (JToken "+1.+1111111.user" "user"), d') /\
     same_tables Sample.store d').
Proof.
  intro req. split; [|split].
  - destruct (C6_login Sample.email_eq Sample.secret Unsigned.sign
                Unsigned.verify
                (req "zed@x.com" "p") 7 Sample.store eq_refl) as (H & _).
    apply H. reflexivity.
  - destruct (C6_login Sample.email_eq Sample.secret Unsigned.sign
                Unsigned.verify
                (req "a@x.com" "P") 7 Sample.store eq_refl) as (_ & H & _).
    destruct (H Sample.alice [] eq_refl) as [Hbad _].
    apply Hbad. discriminate.
  - destruct (C6_login Sample.email_eq Sample.secret Unsigned.sign
                Unsigned.verify
                (req "a@x.com" "p") 7 Sample.store eq_refl) as (_ & H & _).
    destruct (H Sample.alice [] eq_refl) as [_ Hok].
    apply (Hok "+1.+1111111.user"); reflexivity.
Defined.

(** C7: the claim as stated fails on [page=99999999999999999999999], read
    as the double 99999999999999991611392: the offset is of the order of
    10^24, reaches the statement as [1e+24], and both List handlers answer
    500 instead of a slice of the eleven devices or the two services. *)
Lemma C7_huge_page_is_500 :
  let req :=
    Sample.request_of None (QString "99999999999999999999999") QUndefined
      "" [] None in
  page_of (query_page req) = Finite 99999999999999991611392 /\
  limit_of (query_limit req) = Finite 10 /\
  get_devices req 0 Sample.store =
    (status_json 500 (JError "Failed to fetch devices"),
     with_faults Sample.store [false; false]) /\
  get_services req 0 Sample.store =
    (status_json 500 (JError "Failed to fetch services"),
     with_faults Sample.store [false; false]).
Proof. repeat split; vm_compute; reflexivity. Qed.

Lemma C7_witness :
  let req :=
    Sample.request_of None (QString "2") (QString "5") "" [] None in
  exists d',
    get_devices req 0 Sample.store =
      (status_json 200
         (JDevices (map Sample.device [6; 7; 8; 9; 10]) 11
            (Finite 2) (Finite 5)), d').
Proof.
  intro req.
  destruct (C7_list_slice req 0 Sample.store 2 5) as (_ & _ & _ & H & _);
    try reflexivity; [lia|].
  apply (H (map Sample.device [1; 2; 3; 4; 5])
           (map Sample.device [6; 7; 8; 9; 10])
           (map Sample.device [11])); reflexivity.
Defined.

Lemma C8_witness :
  let req f :=
    Sample.request_of (Some "Bearer +1.+.user") QUndefined QUndefined "3"
      [("name", "tablet"); ("image", "/uploads/old.png")] f in
  let serve :=
    serve Sample.email_eq Sample.id_eq Sample.secret Unsigned.sign
      Unsigned.verify Sample.extname in
  (exists d' r,
     serve POST "/api/devices"
       (req (Some {| originalname := "photo.PNG";
                     date_now := 1700000000123 |})) 0 Sample.store =
       Some (status_json 201 (JMessage "Device added"), d') /\
     rows (devices d') = (rows (devices Sample.store) ++ [r])%list /\
     Device.image r = Some "/uploads/1700000000123.PNG") /\
  (exists d' r,
     serve POST "/api/devices" (req None) 0 Sample.store =
       Some (status_json 201 (JMessage "Device added"), d') /\
     rows (devices d') = (rows (devices Sample.store) ++ [r])%list /\
     Device.image r = Some "/uploads/placeholder.jpg") /\
  (exists d',
     serve PUT "/api/devices/:id" (req None) 0 Sample.store =
       Some (status_json 200 (JMessage "Device updated"), d') /\
     forall r, In r (rows (devices d')) ->
       Sample.id_eq "3" (Device.id r) = true ->
       Device.image r = Some "/uploads/old.png").
Proof.
  intros req serve'.
  pose (user := {| claims_id := 1; claims_role := "user";
                   iat := 0; exp := 3600 |}).
  split; [|split].
  - destruct (C8_image_reference Sample.email_eq Sample.id_eq Sample.secret
                Unsigned.sign Unsigned.verify Sample.extname
                (req (Some {| originalname := "photo.PNG";
                              date_now := 1700000000123 |})) 0
                Sample.store "+1.+.user" user
                eq_refl eq_refl eq_refl eq_refl) as (H & _).
    exact H.
  - destruct (C8_image_reference Sample.email_eq Sample.id_eq Sample.secret
                Unsigned.sign Unsigned.verify Sample.extname
                (req None) 0 Sample.store "+1.+.user" user
                eq_refl eq_refl eq_refl eq_refl) as (H & _).
    exact H.
  - destruct (C8_image_reference Sample.email_eq Sample.id_eq Sample.secret
                Unsigned.sign Unsigned.verify Sample.extname
                (req None) 0 Sample.store "+1.+.user" user
                eq_refl eq_refl eq_refl eq_refl)
      as (_ & _ & (d' & Hput & _ & Himg) & _).
    exists d'. split; [exact Hput|exact Himg].
Defined.

Lemma C9_witness :
  let gate := authenticateToken Sample.secret Unsigned.verify in
  let r := {| verb := DELETE; path := "/api/services/:id"; stack := [gate];
              handle := delete_service_handler Sample.id_eq |} in
  let req :=
    Sample.request_of (Some "+1.+.user") QUndefined QUndefined "1" [] None in
  run_route r req 0 Sample.store =
    (status_json 401 (JError "Token required"), Sample.store).
Proof.
  intros gate r req.
  apply (C9_header_without_space Sample.email_eq Sample.id_eq Sample.secret
           Unsigned.sign Unsigned.verify Sample.extname r req 0 Sample.store
           "+1.+.user").
  - do 9 right. left. reflexivity.
  - reflexivity.
  - reflexivity.
  - intros c Hc. cbn in Hc.
    repeat (destruct Hc as [<-|Hc]; [discriminate|]). contradiction.
Defined.

Lemma X1_witness :
  let r := {| verb := PUT; path := "/api/devices/:id";
              stack := [authenticateToken Sample.secret Unsigned.verify;
                        upload_single_image Sample.extname];
              handle := put_device Sample.id_eq |} in
  let req :=
    Sample.request_of (Some "Bearer +1.+.user") QUndefined QUndefined "3"
      [("name", "tablet")] None in
  users (snd (run_route r req 0 Sample.store)) = users Sample.store /\
  services (snd (run_route r req 0 Sample.store)) = services Sample.store.
Proof.
  intros r req.
  destruct (X1_routes_write_their_own_table Sample.email_eq Sample.id_eq
              Sample.secret Unsigned.sign Unsigned.verify Sample.extname r req 0
              Sample.store) as (Hu & _ & Hs).
  - do 4 right. left. reflexivity.
  - split; [apply Hu; discriminate|apply Hs; left; reflexivity].
Defined.

Lemma X3_witness :
  let post_register :=
    {| verb := POST; path := "/api/register"; stack := [];
       handle := register Sample.email_eq |} in
  let post_login :=
    {| verb := POST; path := "/api/login"; stack := [];
       handle := login Sample.email_eq Sample.secret Unsigned.sign |} in
  let req e :=
    Sample.request_of None QUndefined QUndefined ""
      [("email", e); ("password", "q")] None in
  emails_distinct Sample.email_eq
    (rows (users
       (fold_left
          (fun d x => snd (run_route (fst (fst x)) (snd (fst x)) (snd x) d))
          [(post_register, req "b@x.com", 0); (post_login, req "b@x.com", 1);
           (post_register, req "b@x.com", 2)]
          Sample.store))).
Proof.
  intros post_register post_login req.
  apply (X3_emails_stay_distinct Sample.email_eq Sample.id_eq Sample.secret
           Unsigned.sign Unsigned.verify Sample.extname).
  - intros x [<-|[<-|[<-|[]]]]; cbn [fst].
    + left. reflexivity.
    + right. left. reflexivity.
    + left. reflexivity.
  - intros l1 v l2 u Heq Hu.
    destruct l1 as [|a l1]; [contradiction|].
    destruct l1; discriminate Heq.
Defined.

Lemma X4_witness :
  let d := with_faults Sample.store [true; false] in
  let req :=
    Sample.request_of None (QString "1") (QString "5") "3"
      [("email", "a@x.com"); ("password", "p")] None in
  login Sample.email_eq Sample.secret Unsigned.sign req 0 d =
    (status_json 500 (JError "Login failed"), with_faults d [false]) /\
  put_device Sample.id_eq req 0 d =
    (status_json 500 (JError "Failed to update device"),
     with_faults d [false]).
Proof.
  intros d req.
  destruct (X4_store_failure_is_500 Sample.email_eq Sample.id_eq
              Sample.secret Unsigned.sign req 0 d [false] eq_refl)
    as (_ & Hlogin & _ & _ & Hput & _).
  split; [exact Hlogin|exact Hput].
Defined.


Lemma X6_witness :
  let req :=
    Sample.request_of None QUndefined QUndefined "3" [] None in
  exists d',
    delete_device_handler Sample.id_eq req 0 Sample.store =
      (status_json 200 (JMessage "Device deleted"), d') /\
    rows (devices d') = map Sample.device [1; 2; 4; 5; 6; 7; 8; 9; 10; 11].
Proof.
  intro req.
  destruct (X6_delete_removes_matching_rows Sample.id_eq req 0 Sample.store
              eq_refl) as [(d' & Hdel & _ & _ & Hrows & _) _].
  exists d'. split; [exact Hdel|]. rewrite Hrows. reflexivity.
Defined.


Lemma X9_witness :
  let req :=
    Sample.request_of None (QString "2") (QString "5") "" [] None in
  exists l total d',
    get_devices req 0 Sample.store =
      (status_json 200 (JDevices l total (Finite 2) (Finite 5)), d') /\
    nth_error l 2 = Some (Sample.device 8).
Proof.
  intro req.
  destruct (X9_every_row_is_on_its_page req 0 Sample.store 7 5)
    as [H _]; try reflexivity; [lia|lia|].
  exact (H (Sample.device 8) eq_refl).
Defined.

Lemma X10_witness :
  let req :=
    Sample.request_of None (QString "4") (QString "5") "" [] None in
  exists d',
    get_devices req 0 Sample.store =
      (status_json 200 (JDevices [] 11 (Finite 4) (Finite 5)), d').
Proof.
  intro req.
  destruct (X10_page_past_the_end_is_empty req 0 Sample.store 4 5)
    as [H _]; try reflexivity; [lia|].
  apply H. cbn. lia.
Defined.


Lemma X12_witness :
  let req h := Sample.request_of (Some h) QUndefined QUndefined "" [] None in
  authenticateToken Sample.secret Unsigned.verify
    (req "Basic +1.+.user and more") 0 =
    Next (set_user (req "Basic +1.+.user and more")
            {| claims_id := 1; claims_role := "user";
               iat := 0; exp := 3600 |}) /\
  authenticateToken Sample.secret Unsigned.verify (req "Bearer  +1.+.user") 0 =
    Respond (status_json 401 (JError "Token required")).
Proof.
  intro req.
  assert (Hno : forall s, (forall c, In c (list_ascii_of_string s) ->
                                     (c =? " ")%char = false) ->
                forall c, In c (list_ascii_of_string s) -> c <> " "%char).
  { intros s H c Hc ->. specialize (H _ Hc). discriminate H. }
  split.
  - apply (X12_gate_reads_second_piece Sample.secret Unsigned.verify
             (req "Basic +1.+.user and more") 0 "Basic" "+1.+.user"
             " and more").
    + apply Hno. intros c Hc. cbn in Hc.
      repeat (destruct Hc as [<-|Hc]; [reflexivity|]). contradiction.
    + apply Hno. intros c Hc. cbn in Hc.
      repeat (destruct Hc as [<-|Hc]; [reflexivity|]). contradiction.
    + right. eexists. reflexivity.
    + reflexivity.
  - apply (X12_gate_reads_second_piece Sample.secret Unsigned.verify
             (req "Bearer  +1.+.user") 0 "Bearer" "" " +1.+.user").
    + apply Hno. intros c Hc. cbn in Hc.
      repeat (destruct Hc as [<-|Hc]; [reflexivity|]). contradiction.
    + intros c [].
    + right. eexists. reflexivity.
    + reflexivity.
Defined.

Lemma X14_witness :
  page_of (QString " 12px") = Finite 12 /\
  limit_of (QString " +12px") = Finite 12 /\
  page_of (QArray ["12"; "7"]) = Finite 12.
Proof.
  destruct (X14_page_reads_leading_number " " "12" "px" 12)
    as ((Hp & _) & (_ & Hl) & Harr); try reflexivity.
  - intros c [<-|[]]. reflexivity.
  - lia.
  - split; [exact Hp|]. split; [exact Hl|]. apply Harr.
Defined.

Lemma X15_witness :
  page_of (QString "-5") = Finite (-5) /\
  limit_of (QString "-5") = Finite (-5).
Proof.
  apply (X15_negative_numbers_are_kept "" "5" "" 5); try reflexivity.
  - intros c [].
  - lia.
Defined.


Lemma X17_witness :
  let req e p :=
    Sample.request_of None QUndefined QUndefined ""
      [("email", e); ("password", p)] None in
  fst (login Sample.email_eq Sample.secret Unsigned.sign (req "a@x.com" "p") 7
         (snd (register Sample.email_eq (req "b@x.com" "q") 0 Sample.store)))
  = fst (login Sample.email_eq Sample.secret Unsigned.sign
           (req "a@x.com" "p") 7 Sample.store).
Proof.
  intro req.
  apply (X17_register_keeps_logins Sample.email_eq Sample.secret
           Unsigned.sign); try reflexivity.
  discriminate.
Defined.

Lemma X18_witness :
  let req :=
    Sample.request_of None QUndefined QUndefined ""
      [("email", "a@x.com"); ("password", "p")] None in
  let req2 :=
    Sample.request_of (Some "Bearer +1.+1111111.user") QUndefined QUndefined
      "" [] None in
  authenticateToken Sample.secret Unsigned.verify req2 7 =
    Next (set_user req2 {| claims_id := 1; claims_role := "user";
                           iat := 7; exp := 3607 |}).
Proof.
  intros req req2.
  apply (X18_login_token_opens_gate Sample.email_eq Sample.secret
           Unsigned.sign Unsigned.verify req req2 7 Sample.store
           (with_faults Sample.store [false; false]) Sample.alice []
           "+1.+1111111.user" "user"); try reflexivity.
  - apply unsigned_contract.
  - discriminate.
  - intros c Hc ->. cbn in Hc.
    repeat (destruct Hc as [Hc|Hc]; [discriminate Hc|]). contradiction.
Defined.
